(** * NexaBridge: the four-step form wizard, its validators and its typewriter

    A shallow embedding of [src/components/StepForm.jsx] (the component
    [App.jsx] mounts) and of the validation schemas of
    [src/components/MultiStepForm.jsx].

    Conventions of the embedding.
    - A JavaScript string is a [string]; one character stands for one
      UTF-16 code unit, so [String.length] is the [.length] of the source.
    - React state variables are the fields of a record; a handler is a
      function from the record to the record.  Calls to collaborators
      ([toast.error], [setTimeout]) are appended to a log carried in the
      state.
    - An [await] splits a handler in two: the part that runs up to the
      [await], and the continuation that runs when the promise settles.
    - A control that the current render does not contain (or renders
      disabled) cannot receive its event: the operation is then the
      identity on the state. *)

From Stdlib Require Import String Ascii List Bool Arith NArith Lia.
From Stdlib Require Import Sorted.
Import ListNotations.

Local Open Scope string_scope.
Local Open Scope list_scope.

(* ===================================================================== *)
(** ** The part of yup and of the yup resolver the schemas use           *)
(* ===================================================================== *)

Module Yup.

(** The outcome of a validation: the spec's [ValidationResult].  The
    schemas here have one field each, so the mapping from field names to
    messages has one entry. *)
Inductive ValidationResult : Type :=
| Valid
| Invalid (field : string) (message : string).

Section Schema.
(** The type of the value the field holds. *)
Variable V : Type.

(** [schema.test(name, message, fn)] *)
Record Test : Type := mkTest
  { test_name : string;
    test_message : string;
    test_fn : V -> bool }.

(** [yup.object().shape({ field: schema })]: a field and the tests
    chained on its schema, in the order of the chain.  No transform
    ([trim], [lowercase], ...) is part of any schema of the source. *)
Record ObjectSchema : Type := shape
  { shape_field : string;
    shape_tests : list Test }.

(** [schema.validate(value, { abortEarly: false })]: every test is run
    and the failures are collected in the order of the chain
    ([ValidationError.inner]). *)
Definition inner (s : ObjectSchema) (v : V) : list (string * string) :=
  map (fun t => (shape_field s, test_message t))
      (filter (fun t => negb (test_fn t v)) (shape_tests s)).

(** [yupResolver(schema)]: the first error of a path is the one the
    form reports for it. *)
Definition yupResolver (s : ObjectSchema) (v : V) : ValidationResult :=
  match inner s v with
  | [] => Valid
  | (path, message) :: _ => Invalid path message
  end.
End Schema.

Arguments mkTest {V} _ _ _.
Arguments shape {V} _ _.
Arguments inner {V} _ _.
Arguments yupResolver {V} _ _.

(** [yup.string()] with its chain: the list of tests added so far. *)
Definition string_ : list (Test string) := [].

(** [.required(message)]: on a string schema the empty string counts as
    missing. *)
Definition required (message : string) (chain : list (Test string))
  : list (Test string) :=
  chain ++ [mkTest "required" message
                   (fun value => negb (String.length value =? 0)%nat)].

(** [.min(limit, message)]: [value.length >= limit]. *)
Definition min (limit : nat) (message : string) (chain : list (Test string))
  : list (Test string) :=
  chain ++ [mkTest "min" message
                   (fun value => (limit <=? String.length value)%nat)].

(** [yup.mixed().test(name, message, fn)] *)
Definition mixed_test {V : Type} (name message : string) (fn : V -> bool)
  : list (Test V) :=
  [mkTest name message fn].

End Yup.

Import Yup.

(* ===================================================================== *)
(** ** The validation schemas                                             *)
(* ===================================================================== *)

(** [projectNameSchema] (StepForm.jsx, MultiStepForm.jsx) *)
Definition projectNameSchema : ObjectSchema string :=
  shape "projectName"
        (min 3 "Project name must be at least 3 characters"
             (required "Project name is required" string_)).

(** [analysisDescriptionSchema] (StepForm.jsx, MultiStepForm.jsx) *)
Definition analysisDescriptionSchema : ObjectSchema string :=
  shape "analysisDescription"
        (min 10 "Please provide more details (at least 10 characters)"
             (required "Analysis description is required" string_)).

(** A file handle as the wizard sees it: [file.name] and [file.size]. *)
Record File : Type := mkFile
  { name : string;
    size : N }.

(** [fileUploadSchema] (MultiStepForm.jsx).  The value of the field is a
    [FileList], or [undefined] when the input was never filled: [None]. *)
Definition fileSize (value : option (list File)) : bool :=
  match value with
  | None => true                                   (* !value *)
  | Some fl =>
      if (List.length fl =? 0)%nat then true       (* value.length === 0 *)
      else forallb (fun file => (size file <=? 5 * 1024 * 1024)%N) fl
  end.

Definition fileUploadSchema : ObjectSchema (option (list File)) :=
  shape "files" (mixed_test "fileSize" "File size is too large" fileSize).

(** The step validator: what the resolver of the step's form answers. *)
Definition validate1 (projectName : string) : ValidationResult :=
  yupResolver projectNameSchema projectName.

Definition validate2 (analysisDescription : string) : ValidationResult :=
  yupResolver analysisDescriptionSchema analysisDescription.

Definition validate3 (files : option (list File)) : ValidationResult :=
  yupResolver fileUploadSchema files.

(** *** Trimming, as the specification words it

    The source never trims.  [trim] is [String.prototype.trim] restricted
    to the white space of ASCII; it is used only to state what the
    specification says about trimmed lengths. *)
Definition isWhiteSpace (c : ascii) : bool :=
  match nat_of_ascii c with
  | 9 | 10 | 11 | 12 | 13 | 32 => true
  | _ => false
  end.

Fixpoint dropWhile {A : Type} (p : A -> bool) (l : list A) : list A :=
  match l with
  | [] => []
  | x :: r => if p x then dropWhile p r else l
  end.

Definition trim (s : string) : string :=
  string_of_list_ascii
    (rev (dropWhile isWhiteSpace
            (rev (dropWhile isWhiteSpace (list_ascii_of_string s))))).

(* ===================================================================== *)
(** ** The typewriter (StepForm.jsx, [Typewriter])                        *)
(* ===================================================================== *)

Module Typewriter.

(** The props of the component; [speed] and [delay] in milliseconds. *)
Record Props : Type := mkProps
  { text : string;
    speed : nat;
    delay : nat }.

(** A pending [setTimeout]: its duration and what the callback closed
    over, the [currentIndex] and the [text] of the render that armed it. *)
Record Timeout : Type := mkTimeout
  { ms : nat;
    cb_currentIndex : nat;
    cb_text : string }.

(** A mounted instance: the props of the last render, the two state
    variables, and the timeout the first effect holds (its cleanup
    clears it, so there is at most one). *)
Record Instance : Type := mkInstance
  { props : Props;
    displayedText : string;
    currentIndex : nat;
    timeout : option Timeout }.

Definition with_timeout (t : option Timeout) (i : Instance) : Instance :=
  mkInstance (props i) (displayedText i) (currentIndex i) t.

Definition with_state (d : string) (n : nat) (i : Instance) : Instance :=
  mkInstance (props i) d n (timeout i).

Definition with_props (p : Props) (i : Instance) : Instance :=
  mkInstance p (displayedText i) (currentIndex i) (timeout i).

(** The body of the first effect: [if (text) { setTimeout(..., 
    currentIndex === 0 ? delay : speed) }].  The empty string is falsy. *)
Definition typingEffect (p : Props) (index : nat) : option Timeout :=
  if (String.length (text p) =? 0)%nat then None
  else Some (mkTimeout (if (index =? 0)%nat then delay p else speed p)
                       index (text p)).

(** The dependency array of the first effect:
    [[currentIndex, text, speed, delay]]. *)
Definition typingDepsSame (prev cur : Instance) : bool :=
  (currentIndex prev =? currentIndex cur)%nat
  && String.eqb (text (props prev)) (text (props cur))
  && (speed (props prev) =? speed (props cur))%nat
  && (delay (props prev) =? delay (props cur))%nat.

(** Committing a render of the first effect: when a dependency changed,
    the cleanup of the previous run clears its timeout and the effect
    runs again. *)
Definition commitTyping (prev cur : Instance) : Instance :=
  if typingDepsSame prev cur then cur
  else with_timeout (typingEffect (props cur) (currentIndex cur)) cur.

(** The second effect, on [[text]]: [setDisplayedText('');
    setCurrentIndex(0)]. *)
Definition resetEffect (i : Instance) : Instance := with_state "" 0 i.

(** A render [next] following the committed render [prev].  The effects
    run in the order of the source; the state the second one sets is
    rendered and committed in turn.  A render, its effects and the render
    they cause are one step: no timeout elapses in between. *)
Definition rerender (prev next : Instance) : Instance :=
  let r1 := commitTyping prev next in
  if String.eqb (text (props prev)) (text (props next)) then r1
  else commitTyping r1 (resetEffect r1).

(** Mounting: the state starts at [('', 0)], both effects run, the
    second sets the state to what it already is. *)
Definition mount (p : Props) : Instance :=
  mkInstance p "" 0 (typingEffect p 0).

(** [text[currentIndex]] appended to a string: a one-character string,
    or [undefined] out of range. *)
Definition appendCharAt (prev : string) (t : string) (index : nat) : string :=
  match String.get index t with
  | Some c => prev ++ String c ""
  | None => prev ++ "undefined"
  end.

(** The timeout elapses and its callback runs:
    [if (currentIndex < text.length) { setDisplayedText(prev => prev +
    text[currentIndex]); setCurrentIndex(prev => prev + 1) }], then the
    render that the state change causes. *)
Definition fire (i : Instance) : Instance :=
  match timeout i with
  | None => i
  | Some t =>
      let idle := with_timeout None i in
      if (cb_currentIndex t <? String.length (cb_text t))%nat then
        rerender idle
          (with_state (appendCharAt (displayedText i) (cb_text t)
                                    (cb_currentIndex t))
                      (currentIndex i + 1) idle)
      else idle
  end.

(** The parent renders the component with another [text]. *)
Definition setText (t : string) (i : Instance) : Instance :=
  rerender i
    (with_props (mkProps t (speed (props i)) (delay (props i))) i).

(** The sequence the component displays: what [displayedText] becomes
    each time a timeout changes it, until no timeout is pending.  [fuel]
    bounds the number of timeouts that elapse. *)
Fixpoint produce (fuel : nat) (i : Instance) : list string :=
  match fuel with
  | O => []
  | S fuel' =>
      match timeout i with
      | None => []
      | Some _ =>
          let i' := fire i in
          if String.eqb (displayedText i') (displayedText i)
          then produce fuel' i'
          else displayedText i' :: produce fuel' i'
      end
  end.

(** The instance after [n] timeouts have elapsed. *)
Fixpoint after (n : nat) (i : Instance) : Instance :=
  match n with
  | O => i
  | S n' => after n' (fire i)
  end.

(** The prefixes of [t] of lengths [from+1] to [from+n], shortest first. *)
Fixpoint prefixes (t : string) (from n : nat) : list string :=
  match n with
  | O => []
  | S n' => substring 0 (S from) t :: prefixes t (S from) n'
  end.

(** The instance that has displayed [k] characters of its text. *)
Definition shown (p : Props) (k : nat) : Instance :=
  mkInstance p (substring 0 k (text p)) k (typingEffect p k).

End Typewriter.

(* ===================================================================== *)
(** ** The wizard (StepForm.jsx, [MultiStepForm])                         *)
(* ===================================================================== *)

Module StepForm.

(** What [useForm] keeps for the one input of a step: the value of the
    registered input and [formState.errors.<field>?.message]. *)
Record FormStore : Type := mkForm
  { fieldValue : string;
    fieldError : option string }.

(** The error a rejected request carries:
    [error.response?.data?.message]. *)
Record ApiError : Type := mkApiError
  { response_data_message : option string }.

Inductive Settlement : Type :=
| Fulfilled
| Rejected (error : ApiError).

(** A promise an [onSubmit] call is suspended on: the timer that settles
    it and how it settles. *)
Record Promise : Type := mkPromise
  { timer_ms : nat;
    settlement : Settlement }.

(** Calls to collaborators. *)
Inductive Effect : Type :=
| ToastError (message : option string)     (* toast.error(message) *)
| SetTimeout (ms : nat).                   (* setTimeout(resolve, ms) *)

Inductive FormDataValue : Type :=
| Text (s : string)
| Blob (f : File).

Record Wizard : Type := mkWizard
  { step : nat;
    projectName : string;
    analysisDescription : string;
    files : list File;
    isSubmitting : bool;
    submitError : option string;
    submitSuccess : bool;
    formStep1 : FormStore;                 (* useForm of step 1 *)
    formStep2 : FormStore;                 (* useForm of step 2 *)
    awaited : list Promise;                (* suspended onSubmit calls *)
    effects : list Effect }.               (* oldest first *)

(** The [useState] initial values and two empty forms. *)
Definition initial : Wizard :=
  mkWizard 1 "" "" [] false None false (mkForm "" None) (mkForm "" None)
           [] [].

(** *** The state setters *)

Definition setStep (n : nat) (w : Wizard) : Wizard :=
  mkWizard n (projectName w) (analysisDescription w) (files w)
           (isSubmitting w) (submitError w) (submitSuccess w)
           (formStep1 w) (formStep2 w) (awaited w) (effects w).

Definition setProjectName (s : string) (w : Wizard) : Wizard :=
  mkWizard (step w) s (analysisDescription w) (files w)
           (isSubmitting w) (submitError w) (submitSuccess w)
           (formStep1 w) (formStep2 w) (awaited w) (effects w).

Definition setAnalysisDescription (s : string) (w : Wizard) : Wizard :=
  mkWizard (step w) (projectName w) s (files w)
           (isSubmitting w) (submitError w) (submitSuccess w)
           (formStep1 w) (formStep2 w) (awaited w) (effects w).

Definition setFiles (fl : list File) (w : Wizard) : Wizard :=
  mkWizard (step w) (projectName w) (analysisDescription w) fl
           (isSubmitting w) (submitError w) (submitSuccess w)
           (formStep1 w) (formStep2 w) (awaited w) (effects w).

Definition setIsSubmitting (b : bool) (w : Wizard) : Wizard :=
  mkWizard (step w) (projectName w) (analysisDescription w) (files w)
           b (submitError w) (submitSuccess w)
           (formStep1 w) (formStep2 w) (awaited w) (effects w).

Definition setSubmitError (e : option string) (w : Wizard) : Wizard :=
  mkWizard (step w) (projectName w) (analysisDescription w) (files w)
           (isSubmitting w) e (submitSuccess w)
           (formStep1 w) (formStep2 w) (awaited w) (effects w).

Definition setSubmitSuccess (b : bool) (w : Wizard) : Wizard :=
  mkWizard (step w) (projectName w) (analysisDescription w) (files w)
           (isSubmitting w) (submitError w) b
           (formStep1 w) (formStep2 w) (awaited w) (effects w).

Definition setFormStep1 (f : FormStore) (w : Wizard) : Wizard :=
  mkWizard (step w) (projectName w) (analysisDescription w) (files w)
           (isSubmitting w) (submitError w) (submitSuccess w)
           f (formStep2 w) (awaited w) (effects w).

Definition setFormStep2 (f : FormStore) (w : Wizard) : Wizard :=
  mkWizard (step w) (projectName w) (analysisDescription w) (files w)
           (isSubmitting w) (submitError w) (submitSuccess w)
           (formStep1 w) f (awaited w) (effects w).

Definition setAwaited (ps : list Promise) (w : Wizard) : Wizard :=
  mkWizard (step w) (projectName w) (analysisDescription w) (files w)
           (isSubmitting w) (submitError w) (submitSuccess w)
           (formStep1 w) (formStep2 w) ps (effects w).

(** A call to a collaborator is logged. *)
Definition perform (e : Effect) (w : Wizard) : Wizard :=
  mkWizard (step w) (projectName w) (analysisDescription w) (files w)
           (isSubmitting w) (submitError w) (submitSuccess w)
           (formStep1 w) (formStep2 w) (awaited w) (effects w ++ [e]).

(** *** react-hook-form: what [useForm({ resolver })] hands out *)

Section UseForm.
Variable schema : ObjectSchema string.
Variable store : Wizard -> FormStore.
Variable setStore : FormStore -> Wizard -> Wizard.

(** [trigger()]: validates the value the input holds, records the
    outcome in [formState.errors], answers whether it is valid. *)
Definition trigger (w : Wizard) : bool * Wizard :=
  let value := fieldValue (store w) in
  match yupResolver schema value with
  | Valid => (true, setStore (mkForm value None) w)
  | Invalid _ message => (false, setStore (mkForm value (Some message)) w)
  end.

(** [handleSubmit(onValid)]: the resolver runs first; [onValid] is
    called with the data only when there is no error, otherwise the
    errors are recorded and nothing is called (the source passes no
    [onInvalid]). *)
Definition handleSubmit (onValid : string -> Wizard -> Wizard)
           (w : Wizard) : Wizard :=
  let value := fieldValue (store w) in
  match yupResolver schema value with
  | Valid => onValid value (setStore (mkForm value None) w)
  | Invalid _ message => setStore (mkForm value (Some message)) w
  end.
End UseForm.

Definition triggerStep1 := trigger projectNameSchema formStep1 setFormStep1.
Definition handleStep1 := handleSubmit projectNameSchema formStep1 setFormStep1.
Definition triggerStep2 :=
  trigger analysisDescriptionSchema formStep2 setFormStep2.
Definition handleStep2 :=
  handleSubmit analysisDescriptionSchema formStep2 setFormStep2.

(** *** The handlers of the component *)

(** [handleFileChange]: [setFiles(Array.from(e.target.files))] *)
Definition handleFileChange (fl : list File) (w : Wizard) : Wizard :=
  setFiles fl w.

(** [onStep1Submit].  [errorsStep1] is the value the handler closed
    over: [errorsStep1.projectName?.message] of the render that created
    it. *)
Definition onStep1Submit (errorsStep1 : option string) (data : string)
           (w : Wizard) : Wizard :=
  let (isValid, w1) := triggerStep1 w in
  if isValid then setStep 2 (setProjectName data w1)
  else perform (ToastError errorsStep1) w1.

(** [onStep2Submit] *)
Definition onStep2Submit (data : string) (w : Wizard) : Wizard :=
  let (isValid, w1) := triggerStep2 w in
  if isValid then setStep 3 (setAnalysisDescription data w1)
  else w1.

(** [handleSkipFiles] *)
Definition handleSkipFiles (w : Wizard) : Wizard := setStep 4 w.

(** The [formData] that [onSubmit] fills. *)
Definition formData (w : Wizard) : list (string * FormDataValue) :=
  [("projectName", Text (projectName w));
   ("analysisDescription", Text (analysisDescription w))]
    ++ (if (0 <? List.length (files w))%nat
        then map (fun file => ("files", Blob file)) (files w)
        else []).

(** [new Promise(resolve => setTimeout(resolve, 1500))]: the executor
    takes [resolve] only. *)
Definition simulatedApiCall : Promise := mkPromise 1500 Fulfilled.

(** [onSubmit], up to its [await]. *)
Definition onSubmit (w : Wizard) : Wizard :=
  let _ := formData w in
  let w1 := setIsSubmitting true w in
  let w2 := setSubmitError None w1 in
  perform (SetTimeout (timer_ms simulatedApiCall))
          (setAwaited (awaited w2 ++ [simulatedApiCall]) w2).

(** [a || b] on strings that may be [undefined]. *)
Definition orElse (a : option string) (b : string) : string :=
  match a with
  | Some s => if (String.length s =? 0)%nat then b else s
  | None => b
  end.

(** [onSubmit], from the [await] on: the rest of [try], or [catch], and
    then [finally]. *)
Definition onSubmit_settled (r : Settlement) (w : Wizard) : Wizard :=
  let w1 :=
    match r with
    | Fulfilled => setSubmitSuccess true w
    | Rejected error =>
        perform (ToastError
                   (Some (orElse (response_data_message error)
                            "An error occurred while submitting the form")))
                w
    end in
  setIsSubmitting false w1.

(** *** The view: which controls a render contains *)

(** [submitSuccess ? <success panel> : <> {step === n && ...} </>] *)
Definition shows (n : nat) (w : Wizard) : bool :=
  negb (submitSuccess w) && (step w =? n)%nat.

(** *** The operations of the wizard: the events of the view *)

(** The user leaves [input] in the field of step 1 and submits the
    form: [onSubmit={handleStep1(onStep1Submit)}]. *)
Definition submitStep1 (input : string) (w : Wizard) : Wizard :=
  if shows 1 w then
    handleStep1 (onStep1Submit (fieldError (formStep1 w)))
                (setFormStep1 (mkForm input (fieldError (formStep1 w))) w)
  else w.

(** [onSubmit={handleStep2(onStep2Submit)}] *)
Definition submitStep2 (input : string) (w : Wizard) : Wizard :=
  if shows 2 w then
    handleStep2 onStep2Submit
                (setFormStep2 (mkForm input (fieldError (formStep2 w))) w)
  else w.

(** The file input of step 3: [onChange={handleFileChange}]. *)
Definition selectFiles (fl : list File) (w : Wizard) : Wizard :=
  if shows 3 w then handleFileChange fl w else w.

(** The SKIP button: rendered at step 3 when [files.length > 0] is
    false. *)
Definition advanceSkippingFiles (w : Wizard) : Wizard :=
  if shows 3 w && negb (0 <? List.length (files w))%nat
  then handleSkipFiles w else w.

(** The Next button: rendered at step 3 when [files.length > 0];
    [onClick={() => setStep(4)}]. *)
Definition advanceWithFiles (w : Wizard) : Wizard :=
  if shows 3 w && (0 <? List.length (files w))%nat
  then setStep 4 w else w.

(** The DONE button of step 4: [onClick={onSubmit}],
    [disabled={isSubmitting}], clicked through the committed render of
    the state [w] itself. *)
Definition submit (w : Wizard) : Wizard :=
  if shows 4 w && negb (isSubmitting w) then onSubmit w else w.


(** The timer of the oldest awaited promise elapses, the promise
    settles and the suspended [onSubmit] goes on. *)
Definition promiseSettles (w : Wizard) : Wizard :=
  match awaited w with
  | [] => w
  | p :: rest => onSubmit_settled (settlement p) (setAwaited rest w)
  end.

Inductive Action : Type :=
| SubmitStep1 (input : string)
| SubmitStep2 (input : string)
| SelectFiles (fl : list File)
| AdvanceSkippingFiles
| AdvanceWithFiles
| Submit
| PromiseSettles.

Definition dispatch (a : Action) (w : Wizard) : Wizard :=
  match a with
  | SubmitStep1 input => submitStep1 input w
  | SubmitStep2 input => submitStep2 input w
  | SelectFiles fl => selectFiles fl w
  | AdvanceSkippingFiles => advanceSkippingFiles w
  | AdvanceWithFiles => advanceWithFiles w
  | Submit => submit w
  | PromiseSettles => promiseSettles w
  end.

(** A session: the actions in the order they happen. *)
Definition run (actions : list Action) (w : Wizard) : Wizard :=
  fold_left (fun acc a => dispatch a acc) actions w.

(** The states of the sessions in which every event is delivered
    through the committed render of the current state. *)
Inductive reachable : Wizard -> Prop :=
| reachable_initial : reachable initial
| reachable_dispatch a w : reachable w -> reachable (dispatch a w).

(** *** The specification's view of the three submission variables *)

Inductive SubmissionStatus : Type :=
| Idle
| InFlight
| Succeeded
| Failed (reason : string).

Definition submissionStatus (w : Wizard) : SubmissionStatus :=
  if submitSuccess w then Succeeded
  else if isSubmitting w then InFlight
  else match submitError w with
       | Some reason => Failed reason
       | None => Idle
       end.


(** The notifications shown so far. *)
Definition notifications (w : Wizard) : list (option string) :=
  flat_map (fun e => match e with ToastError m => [m] | _ => [] end)
           (effects w).

(** The invariant of the data model (spec, section 3). *)
Definition namedAndDescribed (w : Wizard) : Prop :=
  (2 <= step w -> projectName w <> "" /\ 3 <= String.length (projectName w))
  /\ (3 <= step w ->
      analysisDescription w <> ""
      /\ 10 <= String.length (analysisDescription w)).

(** What holds of the submission variables all along a session: a
    suspended [onSubmit] exists exactly while [isSubmitting], it waits on
    the simulated call, no error was stored and nothing was notified. *)
Definition submissionInv (w : Wizard) : Prop :=
  awaited w = (if isSubmitting w then [simulatedApiCall] else [])
  /\ submitError w = None
  /\ notifications w = [].

(** A wizard at review (the end-to-end session of the spec). *)
Definition atReview : Wizard :=
  run [SubmitStep1 "ABC"; SubmitStep2 "a sufficiently long description";
       AdvanceSkippingFiles] initial.

End StepForm.

(* ===================================================================== *)
(** ** The earlier typing animation (StepForm.jsx, [TypingAnimation])     *)
(* ===================================================================== *)

Module TypingAnimation.

(** The props of the component: no [delay] here. *)
Record Props : Type := mkProps
  { text : string;
    speed : nat }.

Record Instance : Type := mkInstance
  { props : Props;
    displayedText : string;
    currentIndex : nat;
    timeout : option Typewriter.Timeout }.

Definition with_timeout (t : option Typewriter.Timeout) (i : Instance)
  : Instance :=
  mkInstance (props i) (displayedText i) (currentIndex i) t.

Definition with_state (d : string) (n : nat) (i : Instance) : Instance :=
  mkInstance (props i) d n (timeout i).

Definition with_props (p : Props) (i : Instance) : Instance :=
  mkInstance p (displayedText i) (currentIndex i) (timeout i).

(** The body of the first effect: [if (currentIndex < text.length) {
    setTimeout(..., speed) }]. *)
Definition typingEffect (p : Props) (index : nat)
  : option Typewriter.Timeout :=
  if (index <? String.length (text p))%nat
  then Some (Typewriter.mkTimeout (speed p) index (text p))
  else None.

(** The dependency array of the first effect:
    [[currentIndex, text, speed]]. *)
Definition typingDepsSame (prev cur : Instance) : bool :=
  (currentIndex prev =? currentIndex cur)%nat
  && String.eqb (text (props prev)) (text (props cur))
  && (speed (props prev) =? speed (props cur))%nat.

Definition commitTyping (prev cur : Instance) : Instance :=
  if typingDepsSame prev cur then cur
  else with_timeout (typingEffect (props cur) (currentIndex cur)) cur.

(** The second effect, on [[text]]. *)
Definition resetEffect (i : Instance) : Instance := with_state "" 0 i.

Definition rerender (prev next : Instance) : Instance :=
  let r1 := commitTyping prev next in
  if String.eqb (text (props prev)) (text (props next)) then r1
  else commitTyping r1 (resetEffect r1).

Definition mount (p : Props) : Instance :=
  mkInstance p "" 0 (typingEffect p 0).

(** The timeout elapses; its callback has no test of its own:
    [setDisplayedText(prev => prev + text[currentIndex]);
    setCurrentIndex(prev => prev + 1)]. *)
Definition fire (i : Instance) : Instance :=
  match timeout i with
  | None => i
  | Some t =>
      let idle := with_timeout None i in
      rerender idle
        (with_state (Typewriter.appendCharAt (displayedText i)
                       (Typewriter.cb_text t) (Typewriter.cb_currentIndex t))
                    (currentIndex i + 1) idle)
  end.

(** The parent renders the component with another [text]. *)
Definition setText (t : string) (i : Instance) : Instance :=
  rerender i (with_props (mkProps t (speed (props i))) i).

Fixpoint produce (fuel : nat) (i : Instance) : list string :=
  match fuel with
  | O => []
  | S fuel' =>
      match timeout i with
      | None => []
      | Some _ =>
          let i' := fire i in
          if String.eqb (displayedText i') (displayedText i)
          then produce fuel' i'
          else displayedText i' :: produce fuel' i'
      end
  end.

Fixpoint after (n : nat) (i : Instance) : Instance :=
  match n with
  | O => i
  | S n' => after n' (fire i)
  end.

(** The instance that has displayed [k] characters of its text. *)
Definition shown (p : Props) (k : nat) : Instance :=
  mkInstance p (substring 0 k (text p)) k (typingEffect p k).

End TypingAnimation.

(* ===================================================================== *)
(** ** The strict variant (MultiStepForm.jsx, [MultiStepForm])            *)
(* ===================================================================== *)

Module MultiStepForm.

(** What [useForm] keeps for the file input of step 3: the [FileList] of
    the input ([None] while it was never filled) and
    [formState.errors.files?.message]. *)
Record FilesStore : Type := mkFilesStore
  { filesValue : option (list File);
    filesError : option string }.

(** How the request settles: [axios.post] resolves with a response, whose
    [data] is logged, or rejects with an error. *)
Inductive Response : Type :=
| Resolved (data : string)
| Rejected (error : StepForm.ApiError).

(** Calls to collaborators. *)
Inductive Effect : Type :=
| HttpPost (url : string) (formData : list (string * StepForm.FormDataValue))
| ConsoleLog (label data : string)
| ConsoleError (label : string) (error : StepForm.ApiError).

Record Wizard : Type := mkWizard
  { step : nat;
    uploadedFiles : list File;
    isSubmitting : bool;
    submitError : option string;
    submitSuccess : bool;
    formStep1 : StepForm.FormStore;
    formStep2 : StepForm.FormStore;
    formStep3 : FilesStore;
    pending : nat;                           (* requests not yet settled *)
    effects : list Effect }.                 (* oldest first *)

Definition initial : Wizard :=
  mkWizard 1 [] false None false
           (StepForm.mkForm "" None) (StepForm.mkForm "" None)
           (mkFilesStore None None) 0 [].

Definition setStep (n : nat) (w : Wizard) : Wizard :=
  mkWizard n (uploadedFiles w) (isSubmitting w) (submitError w)
           (submitSuccess w) (formStep1 w) (formStep2 w) (formStep3 w)
           (pending w) (effects w).

Definition setUploadedFiles (fl : list File) (w : Wizard) : Wizard :=
  mkWizard (step w) fl (isSubmitting w) (submitError w)
           (submitSuccess w) (formStep1 w) (formStep2 w) (formStep3 w)
           (pending w) (effects w).

Definition setIsSubmitting (b : bool) (w : Wizard) : Wizard :=
  mkWizard (step w) (uploadedFiles w) b (submitError w)
           (submitSuccess w) (formStep1 w) (formStep2 w) (formStep3 w)
           (pending w) (effects w).

Definition setSubmitError (e : option string) (w : Wizard) : Wizard :=
  mkWizard (step w) (uploadedFiles w) (isSubmitting w) e
           (submitSuccess w) (formStep1 w) (formStep2 w) (formStep3 w)
           (pending w) (effects w).

Definition setSubmitSuccess (b : bool) (w : Wizard) : Wizard :=
  mkWizard (step w) (uploadedFiles w) (isSubmitting w) (submitError w)
           b (formStep1 w) (formStep2 w) (formStep3 w)
           (pending w) (effects w).

Definition setFormStep1 (f : StepForm.FormStore) (w : Wizard) : Wizard :=
  mkWizard (step w) (uploadedFiles w) (isSubmitting w) (submitError w)
           (submitSuccess w) f (formStep2 w) (formStep3 w)
           (pending w) (effects w).

Definition setFormStep2 (f : StepForm.FormStore) (w : Wizard) : Wizard :=
  mkWizard (step w) (uploadedFiles w) (isSubmitting w) (submitError w)
           (submitSuccess w) (formStep1 w) f (formStep3 w)
           (pending w) (effects w).

Definition setFormStep3 (f : FilesStore) (w : Wizard) : Wizard :=
  mkWizard (step w) (uploadedFiles w) (isSubmitting w) (submitError w)
           (submitSuccess w) (formStep1 w) (formStep2 w) f
           (pending w) (effects w).

Definition setPending (n : nat) (w : Wizard) : Wizard :=
  mkWizard (step w) (uploadedFiles w) (isSubmitting w) (submitError w)
           (submitSuccess w) (formStep1 w) (formStep2 w) (formStep3 w)
           n (effects w).

Definition perform (e : Effect) (w : Wizard) : Wizard :=
  mkWizard (step w) (uploadedFiles w) (isSubmitting w) (submitError w)
           (submitSuccess w) (formStep1 w) (formStep2 w) (formStep3 w)
           (pending w) (effects w ++ [e]).

(** *** react-hook-form, for the text inputs and for the file input *)

Section UseForm.
Variable schema : ObjectSchema string.
Variable store : Wizard -> StepForm.FormStore.
Variable setStore : StepForm.FormStore -> Wizard -> Wizard.

Definition trigger (w : Wizard) : bool * Wizard :=
  let value := StepForm.fieldValue (store w) in
  match yupResolver schema value with
  | Valid => (true, setStore (StepForm.mkForm value None) w)
  | Invalid _ message =>
      (false, setStore (StepForm.mkForm value (Some message)) w)
  end.

Definition handleSubmit (onValid : string -> Wizard -> Wizard)
           (w : Wizard) : Wizard :=
  let value := StepForm.fieldValue (store w) in
  match yupResolver schema value with
  | Valid => onValid value (setStore (StepForm.mkForm value None) w)
  | Invalid _ message => setStore (StepForm.mkForm value (Some message)) w
  end.
End UseForm.

Definition triggerStep1 := trigger projectNameSchema formStep1 setFormStep1.
Definition handleStep1 := handleSubmit projectNameSchema formStep1 setFormStep1.
Definition triggerStep2 :=
  trigger analysisDescriptionSchema formStep2 setFormStep2.
Definition handleStep2 :=
  handleSubmit analysisDescriptionSchema formStep2 setFormStep2.

(** [handleStep3(onValid)], with the resolver of [fileUploadSchema]. *)
Definition handleStep3 (onValid : Wizard -> Wizard) (w : Wizard) : Wizard :=
  let value := filesValue (formStep3 w) in
  match yupResolver fileUploadSchema value with
  | Valid => onValid (setFormStep3 (mkFilesStore value None) w)
  | Invalid _ message => setFormStep3 (mkFilesStore value (Some message)) w
  end.

(** *** The handlers of the component *)

(** [handleFileChange].  The file input is written
    [<input ... onChange={handleFileChange} ... {...registerStep3('files')} />]:
    the props spread last win, and [register] returns an [onChange] of
    its own, so no control of the view calls this handler. *)
Definition handleFileChange (fl : list File) (w : Wizard) : Wizard :=
  setUploadedFiles fl w.

(** [onStep1Submit] *)
Definition onStep1Submit (data : string) (w : Wizard) : Wizard :=
  let (isValid, w1) := triggerStep1 w in
  if isValid then setStep 2 w1 else w1.

(** [onStep2Submit] *)
Definition onStep2Submit (data : string) (w : Wizard) : Wizard :=
  let (isValid, w1) := triggerStep2 w in
  if isValid then setStep 3 w1 else w1.

(** The [formData] that [onStep3Submit] fills: the uploaded files only. *)
Definition formData (w : Wizard) : list (string * StepForm.FormDataValue) :=
  if (0 <? List.length (uploadedFiles w))%nat
  then map (fun file => ("files", StepForm.Blob file)) (uploadedFiles w)
  else [].

(** [onStep3Submit], up to its [await]. *)
Definition onStep3Submit (w : Wizard) : Wizard :=
  let w1 := setIsSubmitting true w in
  let w2 := setSubmitError None w1 in
  perform (HttpPost "https://your-api-endpoint.com/projects" (formData w))
          (setPending (pending w2 + 1) w2).

(** [onStep3Submit], from the [await] on. *)
Definition onStep3Submit_settled (r : Response) (w : Wizard) : Wizard :=
  let w1 :=
    match r with
    | Resolved data =>
        perform (ConsoleLog "Submission successful:" data)
                (setSubmitSuccess true w)
    | Rejected error =>
        perform (ConsoleError "Submission error:" error)
                (setSubmitError
                   (Some (StepForm.orElse
                            (StepForm.response_data_message error)
                            "An error occurred while submitting the form"))
                   w)
    end in
  setIsSubmitting false w1.

(** [handleSkipFiles] *)
Definition handleSkipFiles (w : Wizard) : Wizard := setStep 4 w.

(** *** The step indicator *)

Inductive Colour : Type := Blue | Green | Gray.

(** The circle of [stepNumber]. *)
Definition circle (step stepNumber : nat) : Colour :=
  if (step =? stepNumber)%nat then Blue
  else if (stepNumber <? step)%nat then Green else Gray.

(** The bar after the circle of [stepNumber], when there is one. *)
Definition bar (step stepNumber : nat) : option Colour :=
  if (stepNumber <? 4)%nat
  then Some (if (stepNumber <? step)%nat then Green else Gray)
  else None.

(** [renderStepIndicator] *)
Definition renderStepIndicator (w : Wizard) : list (Colour * option Colour) :=
  map (fun stepNumber => (circle (step w) stepNumber, bar (step w) stepNumber))
      [1; 2; 3; 4].

(** *** The view and the operations *)

Definition shows (n : nat) (w : Wizard) : bool :=
  negb (submitSuccess w) && (step w =? n)%nat.

(** The error panel of step 4: [{submitError && (...)}]. *)
Definition errorPanel (w : Wizard) : option string :=
  if shows 4 w then
    match submitError w with
    | Some message =>
        if (String.length message =? 0)%nat then None else Some message
    | None => None
    end
  else None.

Definition submitStep1 (input : string) (w : Wizard) : Wizard :=
  if shows 1 w then
    handleStep1 onStep1Submit
      (setFormStep1
         (StepForm.mkForm input (StepForm.fieldError (formStep1 w))) w)
  else w.

Definition submitStep2 (input : string) (w : Wizard) : Wizard :=
  if shows 2 w then
    handleStep2 onStep2Submit
      (setFormStep2
         (StepForm.mkForm input (StepForm.fieldError (formStep2 w))) w)
  else w.

(** The Back buttons of steps 2, 3 and 4: [setStep(1)], [setStep(2)],
    [setStep(3)]. *)
Definition goBack (w : Wizard) : Wizard :=
  if shows 2 w then setStep 1 w
  else if shows 3 w then setStep 2 w
  else if shows 4 w then setStep 3 w
  else w.

(** The SKIP button of step 3. *)
Definition skip (w : Wizard) : Wizard :=
  if shows 3 w then handleSkipFiles w else w.

(** The Done button of step 3, [disabled={isSubmitting}],
    [onSubmit={handleStep3(onStep3Submit)}], clicked when the form
    library holds [value] for the file input: a change of the input
    before the click sets that value; a re-mount of the input (Back and
    forth) does not. *)
Definition done (value : option (list File)) (w : Wizard) : Wizard :=
  if shows 3 w && negb (isSubmitting w) then
    handleStep3 onStep3Submit
      (setFormStep3 (mkFilesStore value (filesError (formStep3 w))) w)
  else w.

(** The Done button clicked with no change of the file input since the
    form library last stored its value: [handleStep3] validates the
    [FileList] the library retains, whatever the input displays. *)
Definition doneClick (w : Wizard) : Wizard :=
  done (filesValue (formStep3 w)) w.

(** The Submit Project button of step 4: [onClick={onStep3Submit}],
    [disabled={isSubmitting}]. *)
Definition submitProject (w : Wizard) : Wizard :=
  if shows 4 w && negb (isSubmitting w) then onStep3Submit w else w.

(** The Start New Project button of the success panel. *)
Definition startNew (w : Wizard) : Wizard :=
  if submitSuccess w
  then setUploadedFiles [] (setSubmitSuccess false (setStep 1 w))
  else w.

(** A request settles and the suspended [onStep3Submit] goes on. *)
Definition requestSettles (r : Response) (w : Wizard) : Wizard :=
  match pending w with
  | O => w
  | S n => onStep3Submit_settled r (setPending n w)
  end.

Inductive Action : Type :=
| SubmitStep1 (input : string)
| SubmitStep2 (input : string)
| GoBack
| Skip
| Done (value : option (list File))
| SubmitProject
| StartNew
| RequestSettles (r : Response).

Definition dispatch (a : Action) (w : Wizard) : Wizard :=
  match a with
  | SubmitStep1 input => submitStep1 input w
  | SubmitStep2 input => submitStep2 input w
  | GoBack => goBack w
  | Skip => skip w
  | Done value => done value w
  | SubmitProject => submitProject w
  | StartNew => startNew w
  | RequestSettles r => requestSettles r w
  end.

Definition run (actions : list Action) (w : Wizard) : Wizard :=
  fold_left (fun acc a => dispatch a acc) actions w.

Inductive reachable : Wizard -> Prop :=
| reachable_initial : reachable initial
| reachable_dispatch a w : reachable w -> reachable (dispatch a w).

(** The specification's view of the three submission variables. *)
Definition submissionStatus (w : Wizard) : StepForm.SubmissionStatus :=
  if submitSuccess w then StepForm.Succeeded
  else if isSubmitting w then StepForm.InFlight
  else match submitError w with
       | Some reason => StepForm.Failed reason
       | None => StepForm.Idle
       end.


(** The form data of the requests posted so far. *)
Definition posted (w : Wizard) : list (list (string * StepForm.FormDataValue)) :=
  flat_map (fun e => match e with HttpPost _ fd => [fd] | _ => [] end)
           (effects w).

(** What holds all along a session of the strict variant. *)
Definition sessionInv (w : Wizard) : Prop :=
  1 <= step w <= 4
  /\ uploadedFiles w = []
  /\ pending w = (if isSubmitting w then 1 else 0)
  /\ (isSubmitting w = true -> submitError w = None)
  /\ (submitSuccess w = true ->
      isSubmitting w = false /\ submitError w = None)
  /\ (2 <= step w ->
      formStep1 w = StepForm.mkForm (StepForm.fieldValue (formStep1 w)) None
      /\ validate1 (StepForm.fieldValue (formStep1 w)) = Valid)
  /\ (3 <= step w ->
      formStep2 w = StepForm.mkForm (StepForm.fieldValue (formStep2 w)) None
      /\ validate2 (StepForm.fieldValue (formStep2 w)) = Valid)
  /\ Forall (fun fd => fd = []) (posted w).

End MultiStepForm.

(* ===================================================================== *)
(** ** The earlier StepForm.jsx: steps that change after one second       *)
(* ===================================================================== *)

Module DelayedStepForm.

(** Calls to collaborators. *)
Inductive Effect : Type :=
| ToastError (message : string)              (* toast.error(message) *)
| Alert (message : string)                   (* alert(message) *)
| SetTimeout (ms : nat).                     (* setTimeout(..., ms) *)

(** Every timeout of the component waits 1000 ms and its callback is
    [setStep(target); setShowTyping(false)]: the pending timeouts are
    the list of their targets, and they elapse in the order they were
    armed. *)
Record Wizard : Type := mkWizard
  { step : nat;
    projectName : string;
    analysisDescription : string;
    files : list File;
    isSubmitting : bool;
    submitError : option string;
    submitSuccess : bool;
    showTyping : bool;
    formStep1 : StepForm.FormStore;
    formStep2 : StepForm.FormStore;
    timers : list nat;                       (* oldest first *)
    effects : list Effect }.                 (* oldest first *)

Definition initial : Wizard :=
  mkWizard 1 "" "" [] false None false false
           (StepForm.mkForm "" None) (StepForm.mkForm "" None) [] [].

Definition setStep (n : nat) (w : Wizard) : Wizard :=
  mkWizard n (projectName w) (analysisDescription w) (files w)
           (isSubmitting w) (submitError w) (submitSuccess w) (showTyping w)
           (formStep1 w) (formStep2 w) (timers w) (effects w).

Definition setProjectName (s : string) (w : Wizard) : Wizard :=
  mkWizard (step w) s (analysisDescription w) (files w)
           (isSubmitting w) (submitError w) (submitSuccess w) (showTyping w)
           (formStep1 w) (formStep2 w) (timers w) (effects w).

Definition setAnalysisDescription (s : string) (w : Wizard) : Wizard :=
  mkWizard (step w) (projectName w) s (files w)
           (isSubmitting w) (submitError w) (submitSuccess w) (showTyping w)
           (formStep1 w) (formStep2 w) (timers w) (effects w).

Definition setFiles (fl : list File) (w : Wizard) : Wizard :=
  mkWizard (step w) (projectName w) (analysisDescription w) fl
           (isSubmitting w) (submitError w) (submitSuccess w) (showTyping w)
           (formStep1 w) (formStep2 w) (timers w) (effects w).

Definition setIsSubmitting (b : bool) (w : Wizard) : Wizard :=
  mkWizard (step w) (projectName w) (analysisDescription w) (files w)
           b (submitError w) (submitSuccess w) (showTyping w)
           (formStep1 w) (formStep2 w) (timers w) (effects w).

Definition setSubmitError (e : option string) (w : Wizard) : Wizard :=
  mkWizard (step w) (projectName w) (analysisDescription w) (files w)
           (isSubmitting w) e (submitSuccess w) (showTyping w)
           (formStep1 w) (formStep2 w) (timers w) (effects w).

Definition setSubmitSuccess (b : bool) (w : Wizard) : Wizard :=
  mkWizard (step w) (projectName w) (analysisDescription w) (files w)
           (isSubmitting w) (submitError w) b (showTyping w)
           (formStep1 w) (formStep2 w) (timers w) (effects w).

Definition setShowTyping (b : bool) (w : Wizard) : Wizard :=
  mkWizard (step w) (projectName w) (analysisDescription w) (files w)
           (isSubmitting w) (submitError w) (submitSuccess w) b
           (formStep1 w) (formStep2 w) (timers w) (effects w).

Definition setFormStep1 (f : StepForm.FormStore) (w : Wizard) : Wizard :=
  mkWizard (step w) (projectName w) (analysisDescription w) (files w)
           (isSubmitting w) (submitError w) (submitSuccess w) (showTyping w)
           f (formStep2 w) (timers w) (effects w).

Definition setFormStep2 (f : StepForm.FormStore) (w : Wizard) : Wizard :=
  mkWizard (step w) (projectName w) (analysisDescription w) (files w)
           (isSubmitting w) (submitError w) (submitSuccess w) (showTyping w)
           (formStep1 w) f (timers w) (effects w).

Definition setTimers (ts : list nat) (w : Wizard) : Wizard :=
  mkWizard (step w) (projectName w) (analysisDescription w) (files w)
           (isSubmitting w) (submitError w) (submitSuccess w) (showTyping w)
           (formStep1 w) (formStep2 w) ts (effects w).

Definition perform (e : Effect) (w : Wizard) : Wizard :=
  mkWizard (step w) (projectName w) (analysisDescription w) (files w)
           (isSubmitting w) (submitError w) (submitSuccess w) (showTyping w)
           (formStep1 w) (formStep2 w) (timers w) (effects w ++ [e]).

(** [setShowTyping(true); setTimeout(() => { setStep(target);
    setShowTyping(false) }, 1000)] *)
Definition stepAfterTyping (target : nat) (w : Wizard) : Wizard :=
  let w1 := setShowTyping true w in
  perform (SetTimeout 1000) (setTimers (timers w1 ++ [target]) w1).

Section UseForm.
Variable schema : ObjectSchema string.
Variable store : Wizard -> StepForm.FormStore.
Variable setStore : StepForm.FormStore -> Wizard -> Wizard.

Definition trigger (w : Wizard) : bool * Wizard :=
  let value := StepForm.fieldValue (store w) in
  match yupResolver schema value with
  | Valid => (true, setStore (StepForm.mkForm value None) w)
  | Invalid _ message =>
      (false, setStore (StepForm.mkForm value (Some message)) w)
  end.

Definition handleSubmit (onValid : string -> Wizard -> Wizard)
           (w : Wizard) : Wizard :=
  let value := StepForm.fieldValue (store w) in
  match yupResolver schema value with
  | Valid => onValid value (setStore (StepForm.mkForm value None) w)
  | Invalid _ message => setStore (StepForm.mkForm value (Some message)) w
  end.
End UseForm.

Definition triggerStep1 := trigger projectNameSchema formStep1 setFormStep1.
Definition handleStep1 := handleSubmit projectNameSchema formStep1 setFormStep1.
Definition triggerStep2 :=
  trigger analysisDescriptionSchema formStep2 setFormStep2.
Definition handleStep2 :=
  handleSubmit analysisDescriptionSchema formStep2 setFormStep2.

(** [handleFileChange] *)
Definition handleFileChange (fl : list File) (w : Wizard) : Wizard :=
  setFiles fl w.

(** [onStep1Submit].  [errorsStep1] is [errorsStep1.projectName] of the
    render that created the handler; reading [.message] of [undefined]
    throws, and then nothing more is done. *)
Definition onStep1Submit (errorsStep1 : option string) (data : string)
           (w : Wizard) : Wizard :=
  let (isValid, w1) := triggerStep1 w in
  if isValid then stepAfterTyping 2 (setProjectName data w1)
  else match errorsStep1 with
       | Some message => perform (ToastError message) w1
       | None => w1
       end.

(** [onStep2Submit] *)
Definition onStep2Submit (data : string) (w : Wizard) : Wizard :=
  let (isValid, w1) := triggerStep2 w in
  if isValid then stepAfterTyping 3 (setAnalysisDescription data w1)
  else w1.

(** [handleSkipFiles], and the [onClick] of the Next button, which has
    the same body. *)
Definition handleSkipFiles (w : Wizard) : Wizard := stepAfterTyping 4 w.

(** [onSubmit]: nothing is awaited, [alert] does not throw, so [try] and
    [finally] run in one go. *)
Definition onSubmit (w : Wizard) : Wizard :=
  let w1 := setIsSubmitting true w in
  let w2 := setSubmitError None w1 in
  let w3 := perform (Alert "Done....") w2 in
  let w4 := setSubmitSuccess true w3 in
  setIsSubmitting false w4.

Definition shows (n : nat) (w : Wizard) : bool :=
  negb (submitSuccess w) && (step w =? n)%nat.

Definition submitStep1 (input : string) (w : Wizard) : Wizard :=
  if shows 1 w then
    handleStep1 (onStep1Submit (StepForm.fieldError (formStep1 w)))
      (setFormStep1
         (StepForm.mkForm input (StepForm.fieldError (formStep1 w))) w)
  else w.

Definition submitStep2 (input : string) (w : Wizard) : Wizard :=
  if shows 2 w then
    handleStep2 onStep2Submit
      (setFormStep2
         (StepForm.mkForm input (StepForm.fieldError (formStep2 w))) w)
  else w.

Definition selectFiles (fl : list File) (w : Wizard) : Wizard :=
  if shows 3 w then handleFileChange fl w else w.

Definition advanceSkippingFiles (w : Wizard) : Wizard :=
  if shows 3 w && negb (0 <? List.length (files w))%nat
  then handleSkipFiles w else w.

Definition advanceWithFiles (w : Wizard) : Wizard :=
  if shows 3 w && (0 <? List.length (files w))%nat
  then stepAfterTyping 4 w else w.

Definition submit (w : Wizard) : Wizard :=
  if shows 4 w && negb (isSubmitting w) then onSubmit w else w.

(** The oldest timeout elapses. *)
Definition timerElapses (w : Wizard) : Wizard :=
  match timers w with
  | [] => w
  | target :: rest => setShowTyping false (setStep target (setTimers rest w))
  end.

Inductive Action : Type :=
| SubmitStep1 (input : string)
| SubmitStep2 (input : string)
| SelectFiles (fl : list File)
| AdvanceSkippingFiles
| AdvanceWithFiles
| Submit
| TimerElapses.

Definition dispatch (a : Action) (w : Wizard) : Wizard :=
  match a with
  | SubmitStep1 input => submitStep1 input w
  | SubmitStep2 input => submitStep2 input w
  | SelectFiles fl => selectFiles fl w
  | AdvanceSkippingFiles => advanceSkippingFiles w
  | AdvanceWithFiles => advanceWithFiles w
  | Submit => submit w
  | TimerElapses => timerElapses w
  end.

Definition run (actions : list Action) (w : Wizard) : Wizard :=
  fold_left (fun acc a => dispatch a acc) actions w.

Inductive reachable : Wizard -> Prop :=
| reachable_initial : reachable initial
| reachable_dispatch a w : reachable w -> reachable (dispatch a w).

(** The pending timeouts lead to the current step or to the next one,
    the earlier ones first; and whatever step the wizard is on or is
    about to be on, what the steps before it asked for was entered. *)
Definition delayedInv (w : Wizard) : Prop :=
  1 <= step w <= 4
  /\ Forall (fun target => step w <= target <= Nat.min 4 (step w + 1))
            (timers w)
  /\ StronglySorted le (timers w)
  /\ (2 <= step w \/ In 2 (timers w) -> 3 <= String.length (projectName w))
  /\ (3 <= step w \/ In 3 (timers w) ->
      10 <= String.length (analysisDescription w)).

End DelayedStepForm.

(** Where a session can be: on one of the four steps, and submitting or
    submitted only at review. *)
Definition atReviewWhenSubmitting (w : StepForm.Wizard) : Prop :=
  1 <= StepForm.step w <= 4
  /\ (StepForm.isSubmitting w = true ->
      StepForm.step w = 4 /\ StepForm.submitSuccess w = false)
  /\ (StepForm.submitSuccess w = true ->
      StepForm.step w = 4 /\ StepForm.isSubmitting w = false).

(** The actions of a user, as opposed to the settling of a promise. *)
Definition userAction (a : StepForm.Action) : bool :=
  match a with
  | StepForm.PromiseSettles => false
  | _ => true
  end.

(* ===================================================================== *)
(** ** The step validator                                                 *)
(* ===================================================================== *)

Section Validator.

(** A chain [string().required(m1).min(n, m2)] with [n] positive answers
    by the length of the value alone. *)
Lemma required_min_resolver (field m1 m2 : string) (n : nat) (s : string) :
  1 <= n ->
  yupResolver (shape field (min n m2 (required m1 string_))) s
  = if (String.length s =? 0)%nat then Invalid field m1
    else if (n <=? String.length s)%nat then Valid
         else Invalid field m2.
Proof.
  intros Hn.
  unfold yupResolver, inner, min, required, string_; simpl.
  destruct (String.length s) as [|k] eqn:Hlen; simpl.
  - destruct n as [|n']; [lia|]. reflexivity.
  - destruct (n <=? S k)%nat; reflexivity.
Qed.

Lemma length_zero_empty (s : string) : String.length s = 0 <-> s = "".
Proof.
  destruct s; simpl; split; intros H; try reflexivity; discriminate.
Qed.

Lemma length_string_of_list (l : list ascii) :
  String.length (string_of_list_ascii l) = List.length l.
Proof. induction l; simpl; congruence. Qed.

Lemma length_list_of_string (s : string) :
  List.length (list_ascii_of_string s) = String.length s.
Proof. induction s; simpl; congruence. Qed.

Lemma dropWhile_length {A : Type} (p : A -> bool) (l : list A) :
  List.length (dropWhile p l) <= List.length l.
Proof.
  induction l as [|x r IH]; simpl; [lia|].
  destruct (p x); simpl; lia.
Qed.

(** Trimming never lengthens a string. *)
Lemma trim_length_le (s : string) :
  String.length (trim s) <= String.length s.
Proof.
  unfold trim.
  rewrite length_string_of_list, length_rev.
  etransitivity; [apply dropWhile_length|].
  rewrite length_rev.
  etransitivity; [apply dropWhile_length|].
  rewrite length_list_of_string. lia.
Qed.

Lemma validate1_by_length (s : string) :
  validate1 s
  = if (String.length s =? 0)%nat
    then Invalid "projectName" "Project name is required"
    else if (3 <=? String.length s)%nat then Valid
         else Invalid "projectName"
                      "Project name must be at least 3 characters".
Proof. apply required_min_resolver. lia. Qed.

Lemma validate2_by_length (s : string) :
  validate2 s
  = if (String.length s =? 0)%nat
    then Invalid "analysisDescription" "Analysis description is required"
    else if (10 <=? String.length s)%nat then Valid
         else Invalid "analysisDescription"
                      "Please provide more details (at least 10 characters)".
Proof. apply required_min_resolver. lia. Qed.

Lemma validate1_Valid (s : string) :
  validate1 s = Valid <-> 3 <= String.length s.
Proof.
  rewrite validate1_by_length.
  destruct (String.length s =? 0)%nat eqn:E0.
  - apply Nat.eqb_eq in E0. split; [discriminate | lia].
  - destruct (3 <=? String.length s)%nat eqn:E3.
    + apply Nat.leb_le in E3. tauto.
    + apply Nat.leb_gt in E3. split; [discriminate | lia].
Qed.

Lemma validate2_Valid (s : string) :
  validate2 s = Valid <-> 10 <= String.length s.
Proof.
  rewrite validate2_by_length.
  destruct (String.length s =? 0)%nat eqn:E0.
  - apply Nat.eqb_eq in E0. split; [discriminate | lia].
  - destruct (10 <=? String.length s)%nat eqn:E3.
    + apply Nat.leb_le in E3. tauto.
    + apply Nat.leb_gt in E3. split; [discriminate | lia].
Qed.

(** C2, as the specification words it, fails: three blanks are a valid
    project name although nothing is left of them after trimming. *)
Lemma C2_trimmed_length_counterexample :
  validate1 "   " = Valid
  /\ String.length (trim "   ") = 0
  /\ ~ (validate1 "   " = Valid <-> 3 <= String.length (trim "   ")).
Proof.
  split; [reflexivity|]. split; [reflexivity|].
  intros [H _]. specialize (H eq_refl). simpl in H. lia.
Qed.

(** C2 (amended): [validate1 s] is Valid exactly when [s] itself has
    at least 3 characters, blanks included (so a trimmed length of 3 or
    more is enough); the empty string is answered with "Project name is
    required" and a non-empty string of fewer than 3 characters with
    "Project name must be at least 3 characters". *)
Theorem C2_validate1_untrimmed_length (s : string) :
  (validate1 s = Valid <-> 3 <= String.length s)
  /\ (3 <= String.length (trim s) -> validate1 s = Valid)
  /\ (s = "" ->
      validate1 s = Invalid "projectName" "Project name is required")
  /\ (s <> "" -> String.length s < 3 ->
      validate1 s = Invalid "projectName"
                            "Project name must be at least 3 characters").
Proof.
  split; [apply validate1_Valid|].
  split.
  { intros H. apply validate1_Valid.
    pose proof (trim_length_le s). lia. }
  split.
  { intros ->. reflexivity. }
  intros Hne Hlt. rewrite validate1_by_length.
  destruct (String.length s =? 0)%nat eqn:E0.
  - apply Nat.eqb_eq, length_zero_empty in E0. contradiction.
  - destruct (3 <=? String.length s)%nat eqn:E3; [|reflexivity].
    apply Nat.leb_le in E3. lia.
Qed.

Lemma C2_validate1_witness :
  validate1 " abc " = Valid
  /\ validate1 "" = Invalid "projectName" "Project name is required"
  /\ validate1 "ab" = Invalid "projectName"
                              "Project name must be at least 3 characters".
Proof.
  split.
  { apply (proj1 (proj2 (C2_validate1_untrimmed_length " abc "))).
    vm_compute. lia. }
  split.
  { apply (proj1 (proj2 (proj2 (C2_validate1_untrimmed_length "")))).
    reflexivity. }
  apply (proj2 (proj2 (proj2 (C2_validate1_untrimmed_length "ab")))).
  - discriminate.
  - simpl. lia.
Defined.

(** C3, as the specification words it, fails: ten blanks are a valid
    description although nothing is left of them after trimming. *)
Lemma C3_trimmed_length_counterexample :
  validate2 "          " = Valid
  /\ String.length (trim "          ") = 0
  /\ ~ (validate2 "          " = Valid
        <-> 10 <= String.length (trim "          ")).
Proof.
  split; [reflexivity|]. split; [reflexivity|].
  intros [H _]. specialize (H eq_refl). simpl in H. lia.
Qed.

(** C3 (amended): [validate2 s] is Valid exactly when [s] itself has
    at least 10 characters, blanks included (so a trimmed length of 10
    or more is enough); the empty string is answered with "Analysis
    description is required" and a non-empty string of fewer than 10
    characters with "Please provide more details (at least 10
    characters)". *)
Theorem C3_validate2_untrimmed_length (s : string) :
  (validate2 s = Valid <-> 10 <= String.length s)
  /\ (10 <= String.length (trim s) -> validate2 s = Valid)
  /\ (s = "" ->
      validate2 s = Invalid "analysisDescription"
                            "Analysis description is required")
  /\ (s <> "" -> String.length s < 10 ->
      validate2 s
      = Invalid "analysisDescription"
                "Please provide more details (at least 10 characters)").
Proof.
  split; [apply validate2_Valid|].
  split.
  { intros H. apply validate2_Valid.
    pose proof (trim_length_le s). lia. }
  split.
  { intros ->. reflexivity. }
  intros Hne Hlt. rewrite validate2_by_length.
  destruct (String.length s =? 0)%nat eqn:E0.
  - apply Nat.eqb_eq, length_zero_empty in E0. contradiction.
  - destruct (10 <=? String.length s)%nat eqn:E3; [|reflexivity].
    apply Nat.leb_le in E3. lia.
Qed.

Lemma C3_validate2_witness :
  validate2 " sales by region " = Valid
  /\ validate2 "" = Invalid "analysisDescription"
                            "Analysis description is required"
  /\ validate2 "too short"
     = Invalid "analysisDescription"
               "Please provide more details (at least 10 characters)".
Proof.
  split.
  { apply (proj1 (proj2 (C3_validate2_untrimmed_length
                           " sales by region "))).
    vm_compute. lia. }
  split.
  { apply (proj1 (proj2 (proj2 (C3_validate2_untrimmed_length "")))).
    reflexivity. }
  apply (proj2 (proj2 (proj2 (C3_validate2_untrimmed_length "too short")))).
  - discriminate.
  - simpl. lia.
Defined.

(** The size cap of the strict variant: 5 MiB. *)
Lemma five_MiB : (5 * 1024 * 1024 = 5242880)%N.
Proof. reflexivity. Qed.

Lemma fileSize_Some (fl : list File) :
  fileSize (Some fl)
  = forallb (fun file => (size file <=? 5 * 1024 * 1024)%N) fl.
Proof. destruct fl; reflexivity. Qed.

Lemma validate3_by_test (value : option (list File)) :
  validate3 value
  = if fileSize value then Valid
    else Invalid "files" "File size is too large".
Proof.
  unfold validate3, yupResolver, inner, fileUploadSchema, mixed_test.
  simpl. destruct (fileSize value); reflexivity.
Qed.

(** C8: in the strict variant a selection is Valid exactly when every
    file of it has at most 5 MiB (so the empty selection is Valid, and
    so is an input never filled); any other selection is Invalid as a
    whole with "File size is too large". *)
Theorem C8_validate3_size_cap (fl : list File) :
  (validate3 (Some fl) = Valid
   <-> Forall (fun file => (size file <= 5242880)%N) fl)
  /\ (validate3 (Some fl) <> Valid ->
      validate3 (Some fl) = Invalid "files" "File size is too large")
  /\ validate3 (Some []) = Valid
  /\ validate3 None = Valid.
Proof.
  rewrite validate3_by_test, fileSize_Some, five_MiB.
  split.
  { destruct (forallb _ fl) eqn:E.
    - split; [intros _|reflexivity].
      rewrite forallb_forall in E. apply Forall_forall.
      intros f Hf. apply N.leb_le. apply E, Hf.
    - split; [discriminate|]. intros H. exfalso.
      rewrite Forall_forall in H.
      assert (forallb (fun file => (size file <=? 5242880)%N) fl = true)
        as E'.
      { apply forallb_forall. intros f Hf. apply N.leb_le. apply H, Hf. }
      congruence. }
  split.
  { destruct (forallb _ fl); [congruence | reflexivity]. }
  split; reflexivity.
Qed.

Lemma C8_validate3_witness :
  validate3 (Some [mkFile "small.csv" 5242880; mkFile "big.bin" 5242881])
  = Invalid "files" "File size is too large".
Proof.
  apply (proj1 (proj2 (C8_validate3_size_cap
           [mkFile "small.csv" 5242880; mkFile "big.bin" 5242881]))).
  vm_compute. discriminate.
Defined.

End Validator.

(* ===================================================================== *)
(** ** The typewriter                                                     *)
(* ===================================================================== *)

Section TypewriterFacts.
Import Typewriter.

Lemma substring_0_0 (t : string) : substring 0 0 t = "".
Proof. destruct t; reflexivity. Qed.

Lemma substring_prefix_length (t : string) (k : nat) :
  k <= String.length t -> String.length (substring 0 k t) = k.
Proof.
  revert k. induction t as [|c t IH]; intros [|k] Hk; simpl in *;
    try reflexivity; try lia.
  rewrite IH by lia. reflexivity.
Qed.

(** One more character of [t] after its prefix of length [k]. *)
Lemma appendCharAt_prefix (t : string) (k : nat) :
  k < String.length t ->
  appendCharAt (substring 0 k t) t k = substring 0 (S k) t.
Proof.
  unfold appendCharAt.
  revert k. induction t as [|c t IH]; intros k Hk; simpl in Hk; [lia|].
  destruct k as [|k].
  - simpl. rewrite substring_0_0. reflexivity.
  - assert (k < String.length t) as Hk' by lia.
    specialize (IH k Hk').
    change (String.get (S k) (String c t)) with (String.get k t).
    change (substring 0 (S k) (String c t))
      with (String c (substring 0 k t)).
    change (substring 0 (S (S k)) (String c t))
      with (String c (substring 0 (S k) t)).
    destruct (String.get k t); simpl; rewrite IH; reflexivity.
Qed.

Lemma prefix_grows (t : string) (k : nat) :
  k < String.length t ->
  String.eqb (substring 0 (S k) t) (substring 0 k t) = false.
Proof.
  intros Hk. apply String.eqb_neq. intros E.
  apply (f_equal String.length) in E.
  rewrite !substring_prefix_length in E by lia. lia.
Qed.

Lemma mount_shown (p : Props) : mount p = shown p 0.
Proof. unfold mount, shown. rewrite substring_0_0. reflexivity. Qed.

Lemma typingEffect_nonempty (p : Props) (k : nat) :
  0 < String.length (text p) ->
  typingEffect p k
  = Some (mkTimeout (if (k =? 0)%nat then delay p else speed p) k (text p)).
Proof.
  intros H. unfold typingEffect.
  destruct (String.length (text p)); [lia | reflexivity].
Qed.

(** A timeout that elapses before the text is complete shows one more
    character and arms the next timeout. *)
Lemma fire_shown (p : Props) (k : nat) :
  k < String.length (text p) -> fire (shown p k) = shown p (S k).
Proof.
  intros Hk. unfold fire, shown at 1; simpl.
  rewrite typingEffect_nonempty by lia. simpl.
  apply Nat.ltb_lt in Hk as Hb. rewrite Hb.
  unfold rerender, with_state, with_timeout; simpl.
  rewrite String.eqb_refl.
  unfold commitTyping, typingDepsSame; simpl.
  replace (k =? k + 1)%nat with false
    by (symmetry; apply Nat.eqb_neq; lia).
  simpl. unfold with_timeout, shown; simpl.
  apply Nat.ltb_lt in Hb.
  rewrite appendCharAt_prefix by exact Hb.
  replace (k + 1) with (S k) by lia. reflexivity.
Qed.

(** The timeout armed after the last character changes nothing and
    arms nothing. *)
Lemma fire_shown_all (p : Props) :
  0 < String.length (text p) ->
  fire (shown p (String.length (text p)))
  = with_timeout None (shown p (String.length (text p))).
Proof.
  intros H. unfold fire, shown at 1; simpl.
  rewrite typingEffect_nonempty by lia. simpl.
  rewrite Nat.ltb_irrefl. reflexivity.
Qed.

Lemma produce_shown (p : Props) (n : nat) :
  forall k fuel,
    k + n = String.length (text p) -> n < fuel ->
    produce fuel (shown p k) = prefixes (text p) k n.
Proof.
  induction n as [|n IH]; intros k fuel Hk Hfuel.
  - destruct fuel as [|fuel]; [lia|]. simpl.
    destruct (typingEffect p k) eqn:E; [|reflexivity].
    assert (0 < String.length (text p)) as Hpos.
    { unfold typingEffect in E.
      destruct (String.length (text p)); [discriminate | lia]. }
    replace k with (String.length (text p)) in * by lia.
    change (fire _) with (fire (shown p (String.length (text p)))).
    rewrite fire_shown_all by exact Hpos. simpl.
    rewrite String.eqb_refl. destruct fuel; reflexivity.
  - destruct fuel as [|fuel]; [lia|].
    assert (k < String.length (text p)) as Hlt by lia.
    simpl. rewrite typingEffect_nonempty by lia.
    change (fire _) with (fire (shown p k)).
    rewrite fire_shown by exact Hlt. simpl.
    rewrite prefix_grows by exact Hlt.
    f_equal. apply IH; lia.
Qed.

(** A mounted typewriter displays the prefixes of its text, shortest
    first, and then stops. *)
Lemma produce_mount (p : Props) (fuel : nat) :
  String.length (text p) < fuel ->
  produce fuel (mount p) = prefixes (text p) 0 (String.length (text p)).
Proof.
  intros H. rewrite mount_shown. apply produce_shown; lia.
Qed.

Lemma after_shown (p : Props) (n : nat) :
  forall k, k + n <= String.length (text p) ->
            after n (shown p k) = shown p (k + n).
Proof.
  induction n as [|n IH]; intros k Hk; simpl.
  - rewrite Nat.add_0_r. reflexivity.
  - rewrite fire_shown by lia. rewrite IH by lia. f_equal. lia.
Qed.

Lemma after_all_idle (p : Props) :
  timeout (after (S (String.length (text p))) (mount p)) = None.
Proof.
  rewrite mount_shown.
  destruct (String.length (text p)) eqn:E.
  - simpl. unfold fire, shown; simpl. unfold typingEffect. rewrite E.
    reflexivity.
  - rewrite <- E.
    replace (S (String.length (text p)))
      with (String.length (text p) + 1) by lia.
    assert (forall a b i, after (a + b) i = after b (after a i)) as Hsplit.
    { induction a; intros; simpl; [reflexivity | apply IHa]. }
    rewrite Hsplit, after_shown by lia. simpl.
    rewrite fire_shown_all by lia. reflexivity.
Qed.

Lemma commitTyping_changed (prev cur : Instance) :
  typingDepsSame prev cur = false ->
  commitTyping prev cur
  = with_timeout (typingEffect (props cur) (currentIndex cur)) cur.
Proof. unfold commitTyping. intros ->. reflexivity. Qed.

(** Another text: whatever was displayed, the instance is the one a
    fresh mount with the new text gives. *)
Lemma setText_restarts (i : Instance) (t : string) :
  t <> text (props i) ->
  setText t i = mount (mkProps t (speed (props i)) (delay (props i))).
Proof.
  destruct i as [[t0 sp dl] d k tm]. simpl. intros Hne.
  assert (String.eqb t0 t = false) as Hb.
  { apply String.eqb_neq. congruence. }
  unfold setText, rerender, with_props. simpl. rewrite Hb.
  rewrite (commitTyping_changed (mkInstance (mkProps t0 sp dl) d k tm)).
  2:{ unfold typingDepsSame. simpl. rewrite Hb, andb_false_r. reflexivity. }
  unfold resetEffect, with_state, with_timeout, mount. simpl.
  destruct (k =? 0)%nat eqn:E.
  - apply Nat.eqb_eq in E. subst k.
    unfold commitTyping, typingDepsSame. simpl.
    rewrite String.eqb_refl, !Nat.eqb_refl. reflexivity.
  - rewrite commitTyping_changed.
    + reflexivity.
    + unfold typingDepsSame. simpl. rewrite E. reflexivity.
Qed.

(** C9: the typewriter given "hi" with delay 0 and speed 10 displays
    exactly "h" and then "hi" (the first timeout armed for 0 ms, the next
    for 10 ms) and after that no timeout is pending, so nothing follows.
    Whenever the text changes, at any point of the sequence, the render
    committed with the new text adds nothing to what was displayed, the
    pending timeout of the old text is dropped and the instance becomes
    the one a fresh mount gives: nothing displayed, index 0, and from
    there the prefixes of the new text and nothing else. *)
Theorem C9_typewriter_sequence_and_restart :
  (forall fuel, 3 <= fuel ->
                produce fuel (mount (mkProps "hi" 10 0)) = ["h"; "hi"])
  /\ option_map ms (timeout (mount (mkProps "hi" 10 0))) = Some 0
  /\ option_map ms (timeout (after 1 (mount (mkProps "hi" 10 0)))) = Some 10
  /\ timeout (after 3 (mount (mkProps "hi" 10 0))) = None
  /\ (forall (i : Instance) (t : string) (fuel : nat),
        t <> text (props i) ->
        String.length t < fuel ->
        displayedText
          (commitTyping i (with_props (mkProps t (speed (props i))
                                               (delay (props i))) i))
        = displayedText i
        /\ displayedText (setText t i) = ""
        /\ currentIndex (setText t i) = 0
        /\ timeout (setText t i)
           = typingEffect (mkProps t (speed (props i)) (delay (props i))) 0
        /\ produce fuel (setText t i) = prefixes t 0 (String.length t)).
Proof.
  split.
  { intros fuel Hfuel.
    rewrite produce_mount by (simpl; lia). reflexivity. }
  split; [reflexivity|]. split; [reflexivity|]. split; [reflexivity|].
  intros i t fuel Hne Hfuel.
  rewrite setText_restarts by exact Hne.
  split.
  { unfold commitTyping. destruct (typingDepsSame _ _); reflexivity. }
  repeat split.
  apply (produce_mount (mkProps t (speed (props i)) (delay (props i)))).
  exact Hfuel.
Qed.

Lemma C9_typewriter_witness :
  produce 3 (mount (mkProps "hi" 10 0)) = ["h"; "hi"]
  /\ produce 4 (setText "yo!" (after 1 (mount (mkProps "hi" 10 0))))
     = ["y"; "yo"; "yo!"].
Proof.
  split.
  - apply (proj1 C9_typewriter_sequence_and_restart 3). lia.
  - apply (proj2 (proj2 (proj2 (proj2 C9_typewriter_sequence_and_restart)))
             (after 1 (mount (mkProps "hi" 10 0))) "yo!" 4).
    + vm_compute. discriminate.
    + simpl. lia.
Defined.

End TypewriterFacts.

(* ===================================================================== *)
(** ** The wizard                                                         *)
(* ===================================================================== *)

Section WizardFacts.
Import StepForm.

(** *** What each operation does to the state *)

Lemma submitStep1_hidden (input : string) (w : Wizard) :
  shows 1 w = false -> submitStep1 input w = w.
Proof. unfold submitStep1. intros ->. reflexivity. Qed.

(** A valid name is stored and the wizard moves to step 2. *)
Lemma submitStep1_valid (input : string) (w : Wizard) :
  shows 1 w = true -> validate1 input = Valid ->
  submitStep1 input w
  = mkWizard 2 input (analysisDescription w) (files w) (isSubmitting w)
             (submitError w) (submitSuccess w) (mkForm input None)
             (formStep2 w) (awaited w) (effects w).
Proof.
  unfold validate1. intros Hshow Hvalid.
  unfold submitStep1. rewrite Hshow.
  unfold handleStep1, handleSubmit.
  cbn [fieldValue formStep1 setFormStep1]. rewrite Hvalid.
  unfold onStep1Submit, triggerStep1, trigger.
  cbn [fieldValue formStep1 setFormStep1]. rewrite Hvalid.
  reflexivity.
Qed.

(** An invalid name only lands in the errors of the form: the handler,
    and with it its [toast.error], is not called. *)
Lemma submitStep1_invalid (input field message : string) (w : Wizard) :
  shows 1 w = true -> validate1 input = Invalid field message ->
  submitStep1 input w = setFormStep1 (mkForm input (Some message)) w.
Proof.
  unfold validate1. intros Hshow Hinvalid.
  unfold submitStep1. rewrite Hshow.
  unfold handleStep1, handleSubmit.
  cbn [fieldValue formStep1 setFormStep1]. rewrite Hinvalid.
  reflexivity.
Qed.

Lemma submitStep2_hidden (input : string) (w : Wizard) :
  shows 2 w = false -> submitStep2 input w = w.
Proof. unfold submitStep2. intros ->. reflexivity. Qed.

Lemma submitStep2_valid (input : string) (w : Wizard) :
  shows 2 w = true -> validate2 input = Valid ->
  submitStep2 input w
  = mkWizard 3 (projectName w) input (files w) (isSubmitting w)
             (submitError w) (submitSuccess w) (formStep1 w)
             (mkForm input None) (awaited w) (effects w).
Proof.
  unfold validate2. intros Hshow Hvalid.
  unfold submitStep2. rewrite Hshow.
  unfold handleStep2, handleSubmit.
  cbn [fieldValue formStep2 setFormStep2]. rewrite Hvalid.
  unfold onStep2Submit, triggerStep2, trigger.
  cbn [fieldValue formStep2 setFormStep2]. rewrite Hvalid.
  reflexivity.
Qed.

Lemma submitStep2_invalid (input field message : string) (w : Wizard) :
  shows 2 w = true -> validate2 input = Invalid field message ->
  submitStep2 input w = setFormStep2 (mkForm input (Some message)) w.
Proof.
  unfold validate2. intros Hshow Hinvalid.
  unfold submitStep2. rewrite Hshow.
  unfold handleStep2, handleSubmit.
  cbn [fieldValue formStep2 setFormStep2]. rewrite Hinvalid.
  reflexivity.
Qed.

Lemma shows_step (n : nat) (w : Wizard) :
  shows n w = true <-> submitSuccess w = false /\ step w = n.
Proof.
  unfold shows. rewrite andb_true_iff, negb_true_iff, Nat.eqb_eq. tauto.
Qed.

Lemma submitStep1_cases (input : string) (w : Wizard) :
  submitStep1 input w = w
  \/ (3 <= String.length input
      /\ submitStep1 input w
         = mkWizard 2 input (analysisDescription w) (files w)
                    (isSubmitting w) (submitError w) (submitSuccess w)
                    (mkForm input None) (formStep2 w) (awaited w)
                    (effects w))
  \/ (exists message,
         submitStep1 input w = setFormStep1 (mkForm input (Some message)) w).
Proof.
  destruct (shows 1 w) eqn:Hshow.
  - destruct (validate1 input) as [|field message] eqn:Hv.
    + right; left. split.
      * apply validate1_Valid, Hv.
      * apply submitStep1_valid; assumption.
    + right; right. exists message.
      eapply submitStep1_invalid; eassumption.
  - left. apply submitStep1_hidden, Hshow.
Qed.

Lemma submitStep2_cases (input : string) (w : Wizard) :
  submitStep2 input w = w
  \/ (10 <= String.length input /\ step w = 2
      /\ submitStep2 input w
         = mkWizard 3 (projectName w) input (files w)
                    (isSubmitting w) (submitError w) (submitSuccess w)
                    (formStep1 w) (mkForm input None) (awaited w)
                    (effects w))
  \/ (exists message,
         submitStep2 input w = setFormStep2 (mkForm input (Some message)) w).
Proof.
  destruct (shows 2 w) eqn:Hshow.
  - destruct (validate2 input) as [|field message] eqn:Hv.
    + right; left. split; [|split].
      * apply validate2_Valid, Hv.
      * apply shows_step in Hshow. tauto.
      * apply submitStep2_valid; assumption.
    + right; right. exists message.
      eapply submitStep2_invalid; eassumption.
  - left. apply submitStep2_hidden, Hshow.
Qed.

Lemma nonempty_of_length (s : string) (n : nat) :
  S n <= String.length s -> s <> "".
Proof. intros H ->. simpl in H. lia. Qed.

(** *** The invariant of the data model *)

(** The invariant reads three fields only. *)
Lemma namedAndDescribed_frame (w w' : Wizard) :
  step w' = step w ->
  projectName w' = projectName w ->
  analysisDescription w' = analysisDescription w ->
  namedAndDescribed w -> namedAndDescribed w'.
Proof.
  unfold namedAndDescribed. intros -> -> ->. tauto.
Qed.

Lemma namedAndDescribed_review (w : Wizard) :
  shows 3 w = true -> namedAndDescribed w -> namedAndDescribed (setStep 4 w).
Proof.
  intros Hshow. apply shows_step in Hshow as [_ H3].
  unfold namedAndDescribed. simpl. rewrite H3.
  intros [Hn Hd]. split; intros _; [apply Hn | apply Hd]; lia.
Qed.

Lemma submit_frame (w : Wizard) :
  step (submit w) = step w
  /\ projectName (submit w) = projectName w
  /\ analysisDescription (submit w) = analysisDescription w
  /\ files (submit w) = files w.
Proof.
  unfold submit. destruct (shows 4 w && negb (isSubmitting w));
    repeat split.
Qed.

Lemma promiseSettles_frame (w : Wizard) :
  step (promiseSettles w) = step w
  /\ projectName (promiseSettles w) = projectName w
  /\ analysisDescription (promiseSettles w) = analysisDescription w
  /\ files (promiseSettles w) = files w.
Proof.
  unfold promiseSettles. destruct (awaited w) as [|[ms [|error]] rest];
    repeat split.
Qed.

Lemma dispatch_namedAndDescribed (a : Action) (w : Wizard) :
  namedAndDescribed w -> namedAndDescribed (dispatch a w).
Proof.
  intros Hinv. destruct a as [input|input|fl| | | |]; simpl.
  - destruct (submitStep1_cases input w) as [-> | [[Hlen ->] | [m ->]]].
    + exact Hinv.
    + unfold namedAndDescribed. simpl. split.
      * intros _. split; [eapply nonempty_of_length|]; exact Hlen.
      * lia.
    + revert Hinv. apply namedAndDescribed_frame; reflexivity.
  - destruct (submitStep2_cases input w)
      as [-> | [(Hlen & Hstep & ->) | [m ->]]].
    + exact Hinv.
    + destruct Hinv as [Hn _].
      unfold namedAndDescribed. simpl. split.
      * intros _. apply Hn. lia.
      * intros _. split; [eapply nonempty_of_length|]; exact Hlen.
    + revert Hinv. apply namedAndDescribed_frame; reflexivity.
  - unfold selectFiles. destruct (shows 3 w); [|exact Hinv].
    revert Hinv. apply namedAndDescribed_frame; reflexivity.
  - unfold advanceSkippingFiles, handleSkipFiles.
    destruct (shows 3 w) eqn:Hshow; simpl; [|exact Hinv].
    destruct (negb (0 <? List.length (files w))%nat); [|exact Hinv].
    apply namedAndDescribed_review; assumption.
  - unfold advanceWithFiles.
    destruct (shows 3 w) eqn:Hshow; simpl; [|exact Hinv].
    destruct (0 <? List.length (files w))%nat; [|exact Hinv].
    apply namedAndDescribed_review; assumption.
  - revert Hinv. apply namedAndDescribed_frame; apply submit_frame.
  - revert Hinv. apply namedAndDescribed_frame; apply promiseSettles_frame.
Qed.

Lemma reachable_run (actions : list Action) :
  forall w, reachable w -> reachable (run actions w).
Proof.
  unfold run. induction actions as [|a rest IH]; intros w Hw; simpl.
  - exact Hw.
  - apply IH. constructor. exact Hw.
Qed.

(** C1: in every state a session can reach, the project name is not
    empty and has at least 3 characters from step 2 on, and the analysis
    description is not empty and has at least 10 characters from step 3
    on; each operation of the wizard (and the settling of a submission)
    keeps it so. *)
Theorem C1_named_and_described_invariant :
  (forall (a : Action) (w : Wizard),
      namedAndDescribed w -> namedAndDescribed (dispatch a w))
  /\ (forall w : Wizard, reachable w -> namedAndDescribed w).
Proof.
  split; [exact dispatch_namedAndDescribed|].
  intros w Hreach. induction Hreach as [|a w _ IH].
  - unfold namedAndDescribed, initial. simpl. lia.
  - apply dispatch_namedAndDescribed, IH.
Qed.

Lemma C1_invariant_witness :
  namedAndDescribed
    (run [SubmitStep1 "ABC"; SubmitStep2 "a sufficiently long description";
          SelectFiles [mkFile "notes.txt" 12]; AdvanceWithFiles;
          Submit; PromiseSettles]
         initial)
  /\ namedAndDescribed (dispatch (SubmitStep1 "ab") initial).
Proof.
  split.
  - apply (proj2 C1_named_and_described_invariant).
    apply reachable_run. constructor.
  - apply (proj1 C1_named_and_described_invariant).
    unfold namedAndDescribed. simpl. lia.
Defined.

(** *** The submission *)

Lemma submissionInv_frame (w w' : Wizard) :
  awaited w' = awaited w ->
  isSubmitting w' = isSubmitting w ->
  submitError w' = submitError w ->
  effects w' = effects w ->
  submissionInv w -> submissionInv w'.
Proof.
  unfold submissionInv, notifications. intros -> -> -> ->. tauto.
Qed.

(** A click on the enabled DONE button starts one simulated request. *)
Lemma submit_enabled (w : Wizard) :
  shows 4 w = true -> isSubmitting w = false ->
  submit w
  = mkWizard (step w) (projectName w) (analysisDescription w) (files w)
             true None (submitSuccess w) (formStep1 w) (formStep2 w)
             (awaited w ++ [simulatedApiCall])
             (effects w ++ [SetTimeout 1500]).
Proof.
  intros Hshow Hidle. unfold submit. rewrite Hshow, Hidle. reflexivity.
Qed.

(** While a submission is in flight the DONE button is disabled. *)
Lemma submit_disabled (w : Wizard) :
  isSubmitting w = true -> submit w = w.
Proof.
  intros Hbusy. unfold submit. rewrite Hbusy, andb_false_r. reflexivity.
Qed.

Lemma dispatch_submissionInv (a : Action) (w : Wizard) :
  submissionInv w -> submissionInv (dispatch a w).
Proof.
  intros Hinv. destruct a as [input|input|fl| | | |]; simpl.
  - destruct (submitStep1_cases input w) as [-> | [[_ ->] | [m ->]]];
      [exact Hinv | |];
      revert Hinv; apply submissionInv_frame; reflexivity.
  - destruct (submitStep2_cases input w) as [-> | [(_ & _ & ->) | [m ->]]];
      [exact Hinv | |];
      revert Hinv; apply submissionInv_frame; reflexivity.
  - unfold selectFiles. destruct (shows 3 w); [|exact Hinv].
    revert Hinv. apply submissionInv_frame; reflexivity.
  - unfold advanceSkippingFiles.
    destruct (shows 3 w && negb (0 <? List.length (files w))%nat);
      [|exact Hinv].
    revert Hinv. apply submissionInv_frame; reflexivity.
  - unfold advanceWithFiles.
    destruct (shows 3 w && (0 <? List.length (files w))%nat);
      [|exact Hinv].
    revert Hinv. apply submissionInv_frame; reflexivity.
  - destruct (shows 4 w) eqn:Hshow.
    + destruct (isSubmitting w) eqn:Hbusy.
      * rewrite submit_disabled by exact Hbusy. exact Hinv.
      * rewrite submit_enabled by assumption.
        destruct Hinv as (Haw & Herr & Hnote). rewrite Hbusy in Haw.
        unfold submissionInv. simpl. rewrite Haw. repeat split.
        unfold notifications in *. simpl.
        rewrite flat_map_app, Hnote. reflexivity.
    + unfold submit. rewrite Hshow. exact Hinv.
  - destruct Hinv as (Haw & Herr & Hnote).
    unfold promiseSettles. rewrite Haw.
    destruct (isSubmitting w) eqn:Hbusy.
    + unfold submissionInv. simpl. repeat split; assumption.
    + unfold submissionInv. rewrite Hbusy. repeat split; assumption.
Qed.

Lemma reachable_submissionInv (w : Wizard) :
  reachable w -> submissionInv w.
Proof.
  induction 1 as [|a w _ IH].
  - unfold submissionInv. repeat split.
  - apply dispatch_submissionInv, IH.
Qed.






(** *** Leaving step 3 *)

(** C7: at step 3 with no file selected, SKIP moves the wizard to step 4
    and Next, which that render does not contain, changes nothing; with
    files selected, Next moves the wizard to step 4 and the selection is
    the same at review. *)
Theorem C7_leaving_step3 (w : Wizard) :
  step w = 3 ->
  submitSuccess w = false ->
  (files w = [] ->
   step (advanceSkippingFiles w) = 4
   /\ advanceSkippingFiles w = setStep 4 w
   /\ advanceWithFiles w = w)
  /\ (files w <> [] ->
      step (advanceWithFiles w) = 4
      /\ files (advanceWithFiles w) = files w
      /\ advanceWithFiles w = setStep 4 w).
Proof.
  intros Hstep Hnot.
  assert (shows 3 w = true) as Hshow by (apply shows_step; tauto).
  unfold advanceSkippingFiles, advanceWithFiles, handleSkipFiles.
  rewrite Hshow. split.
  - intros ->. simpl. repeat split.
  - intros Hne. destruct (files w) as [|f fl] eqn:Hfiles; [contradiction|].
    simpl. repeat split. exact Hfiles.
Qed.

Lemma C7_leaving_step3_witness :
  let upload :=
    run [SubmitStep1 "ABC"; SubmitStep2 "a sufficiently long description"]
        initial in
  step (advanceSkippingFiles upload) = 4
  /\ advanceWithFiles upload = upload
  /\ files (advanceWithFiles (selectFiles [mkFile "notes.txt" 12] upload))
     = [mkFile "notes.txt" 12].
Proof.
  split; [|split].
  - apply (C7_leaving_step3
             (run [SubmitStep1 "ABC";
                   SubmitStep2 "a sufficiently long description"] initial));
      reflexivity.
  - apply (C7_leaving_step3
             (run [SubmitStep1 "ABC";
                   SubmitStep2 "a sufficiently long description"] initial));
      reflexivity.
  - apply (proj2 (C7_leaving_step3
             (selectFiles [mkFile "notes.txt" 12]
                (run [SubmitStep1 "ABC";
                      SubmitStep2 "a sufficiently long description"]
                     initial))
             eq_refl eq_refl)).
    simpl. discriminate.
Defined.

(** *** The simulated request *)

(** C10: in the component that is mounted, DONE clicked at step 4 with no
    submission pending arms a 1500 ms timer and nothing else, and when the
    timer has elapsed the status is Succeeded; in every state a session
    can reach, the promises awaited can only be fulfilled, nothing was
    ever notified and no error is stored, so the status is never Failed:
    the [catch] of [onSubmit] does not run. *)
Theorem C10_simulated_submission_succeeds :
  (forall w : Wizard,
      shows 4 w = true -> isSubmitting w = false -> awaited w = [] ->
      submissionStatus (submit w) = InFlight
      /\ awaited (submit w) = [simulatedApiCall]
      /\ effects (submit w) = effects w ++ [SetTimeout 1500]
      /\ submissionStatus (promiseSettles (submit w)) = Succeeded
      /\ effects (promiseSettles (submit w)) = effects w ++ [SetTimeout 1500]
      /\ awaited (promiseSettles (submit w)) = [])
  /\ (forall w : Wizard,
        reachable w ->
        Forall (fun p => settlement p = Fulfilled) (awaited w)
        /\ notifications w = []
        /\ submitError w = None
        /\ (forall reason : string, submissionStatus w <> Failed reason)).
Proof.
  split.
  - intros w Hshow Hidle Haw.
    rewrite submit_enabled by assumption.
    apply shows_step in Hshow as [Hnot _].
    unfold promiseSettles, submissionStatus. simpl.
    rewrite Haw, Hnot. simpl. repeat split.
  - intros w Hreach.
    destruct (reachable_submissionInv w Hreach) as (Haw & Herr & Hnote).
    split.
    { rewrite Haw. destruct (isSubmitting w); repeat constructor. }
    split; [exact Hnote|]. split; [exact Herr|].
    intros reason. unfold submissionStatus. rewrite Herr.
    destruct (submitSuccess w), (isSubmitting w); discriminate.
Qed.

Lemma C10_simulated_submission_witness :
  submissionStatus (promiseSettles (submit atReview)) = Succeeded
  /\ effects (promiseSettles (submit atReview)) = [SetTimeout 1500]
  /\ notifications (run [Submit; PromiseSettles; Submit] atReview) = [].
Proof.
  pose proof (proj1 C10_simulated_submission_succeeds atReview
                eq_refl eq_refl eq_refl) as Hrun.
  split; [|split].
  - apply Hrun.
  - apply Hrun.
  - apply (proj2 C10_simulated_submission_succeeds).
    apply reachable_run. unfold atReview. apply reachable_run. constructor.
Defined.

(** *** An invalid project name *)

(** Whatever is submitted at step 1, no collaborator is called. *)
Lemma submitStep1_effects (input : string) (w : Wizard) :
  effects (submitStep1 input w) = effects w.
Proof.
  destruct (submitStep1_cases input w) as [-> | [[_ ->] | [m ->]]];
    reflexivity.
Qed.

(** C4, at the empty name: the validator answers "Project name is
    required", the form records it among its errors, the wizard stays at
    step 1 with its fields as they were, and no notification is shown. *)
Theorem C4_empty_name_is_not_notified :
  validate1 "" = Invalid "projectName" "Project name is required"
  /\ submitStep1 "" initial
     = setFormStep1 (mkForm "" (Some "Project name is required")) initial
  /\ step (submitStep1 "" initial) = 1
  /\ projectName (submitStep1 "" initial) = ""
  /\ notifications (submitStep1 "" initial) = []
  /\ effects (submitStep1 "" initial) = [].
Proof. repeat split. Qed.

End WizardFacts.

(* ===================================================================== *)
(** ** More on the typewriter and on the earlier typing animation         *)
(* ===================================================================== *)

Section TypewriterSequence.
Import Typewriter.

Lemma prefixes_length (t : string) (n : nat) :
  forall from, List.length (prefixes t from n) = n.
Proof. induction n; intros; simpl; [reflexivity | rewrite IHn; reflexivity]. Qed.

Lemma prefixes_nth (t : string) (n : nat) :
  forall from k, k < n ->
    nth_error (prefixes t from n) k = Some (substring 0 (S (from + k)) t).
Proof.
  induction n as [|n IH]; intros from k Hk; [lia|].
  destruct k as [|k]; simpl.
  - rewrite Nat.add_0_r. reflexivity.
  - rewrite IH by lia.
    replace (S from + k) with (from + S k) by lia. reflexivity.
Qed.

Lemma substring_whole (t : string) :
  substring 0 (String.length t) t = t.
Proof. induction t; simpl; [reflexivity | rewrite IHt; reflexivity]. Qed.

Lemma after_add (a b : nat) :
  forall i, after (a + b) i = after b (after a i).
Proof. induction a; intros; simpl; [reflexivity | apply IHa]. Qed.

Lemma fire_idle (i : Instance) : timeout i = None -> fire i = i.
Proof. unfold fire. intros ->. reflexivity. Qed.

Lemma after_idle (n : nat) :
  forall i, timeout i = None -> after n i = i.
Proof.
  induction n as [|n IH]; intros i Hi; simpl; [reflexivity|].
  rewrite fire_idle by exact Hi. apply IH, Hi.
Qed.

(** X1: whatever the text, the speed and the delay, a mounted typewriter
    displays the prefixes of the text of lengths 1, 2, ... in this order,
    one per timeout, as many as the text has characters, the last one
    being the whole text. *)
Theorem X1_typewriter_displays_every_prefix (p : Props) (fuel : nat) :
  String.length (text p) < fuel ->
  List.length (produce fuel (mount p)) = String.length (text p)
  /\ (forall k, k < String.length (text p) ->
                nth_error (produce fuel (mount p)) k
                = Some (substring 0 (S k) (text p)))
  /\ (text p <> "" -> last (produce fuel (mount p)) "" = text p).
Proof.
  intros Hfuel. rewrite produce_mount by exact Hfuel.
  split; [apply prefixes_length|].
  split; [intros k Hk; apply prefixes_nth; exact Hk|].
  intros Hne.
  destruct (String.length (text p)) as [|n] eqn:Hlen.
  { apply length_zero_empty in Hlen. contradiction. }
  assert (nth_error (prefixes (text p) 0 (S n)) n = Some (text p)) as Hn.
  { rewrite prefixes_nth by lia. simpl. rewrite <- Hlen at 1.
    rewrite substring_whole. reflexivity. }
  pose proof (prefixes_length (text p) (S n) 0) as Hl.
  destruct (prefixes (text p) 0 (S n)) as [|x l] eqn:E using rev_ind.
  - discriminate.
  - rewrite last_last. rewrite length_app in Hl. simpl in Hl.
    rewrite nth_error_app2 in Hn by lia.
    replace (n - List.length l) with 0 in Hn by lia.
    simpl in Hn. congruence.
Qed.

Lemma X1_typewriter_prefix_witness :
  List.length (produce 6 (mount (mkProps "hello" 30 300))) = 5
  /\ last (produce 6 (mount (mkProps "hello" 30 300))) "" = "hello".
Proof.
  split.
  - apply (X1_typewriter_displays_every_prefix (mkProps "hello" 30 300) 6).
    simpl. lia.
  - apply (X1_typewriter_displays_every_prefix (mkProps "hello" 30 300) 6).
    + simpl. lia.
    + discriminate.
Defined.

(** X2: for a non-empty text the first timeout waits [delay] and every
    later one [speed]; after [k] timeouts the first [k] characters are
    displayed; the timeout armed after the last character changes
    nothing, and from then on the instance shows the whole text with no
    timeout pending, however many more ticks pass. *)
Theorem X2_typewriter_timeouts (p : Props) :
  text p <> "" ->
  (forall k, k <= String.length (text p) ->
             after k (mount p)
             = mkInstance p (substring 0 k (text p)) k
                 (Some (mkTimeout (if (k =? 0)%nat then delay p else speed p)
                                  k (text p))))
  /\ (forall n, String.length (text p) < n ->
                after n (mount p)
                = mkInstance p (text p) (String.length (text p)) None).
Proof.
  intros Hne.
  assert (0 < String.length (text p)) as Hpos.
  { destruct (String.length (text p)) eqn:E; [|lia].
    apply length_zero_empty in E. contradiction. }
  split.
  - intros k Hk. rewrite mount_shown, after_shown by lia. simpl.
    unfold shown. rewrite typingEffect_nonempty by exact Hpos. reflexivity.
  - intros n Hn.
    replace n with (String.length (text p) + 1 + (n - String.length (text p) - 1))
      by lia.
    rewrite !after_add, mount_shown, after_shown by lia.
    change (0 + String.length (text p)) with (String.length (text p)).
    change (after 1 (shown p (String.length (text p))))
      with (fire (shown p (String.length (text p)))).
    rewrite fire_shown_all by exact Hpos.
    rewrite after_idle by reflexivity.
    unfold with_timeout, shown. simpl. rewrite substring_whole. reflexivity.
Qed.

Lemma X2_typewriter_timeouts_witness :
  after 2 (mount (mkProps "hello" 30 300))
  = mkInstance (mkProps "hello" 30 300) "he" 2
               (Some (mkTimeout 30 2 "hello"))
  /\ after 9 (mount (mkProps "hello" 30 300))
     = mkInstance (mkProps "hello" 30 300) "hello" 5 None.
Proof.
  assert (text (mkProps "hello" 30 300) <> "") as Hne by discriminate.
  split.
  - apply (proj1 (X2_typewriter_timeouts _ Hne) 2). simpl. lia.
  - apply (proj2 (X2_typewriter_timeouts _ Hne) 9). simpl. lia.
Defined.

(** X3: when the text becomes empty the animation stops: nothing is
    displayed, no timeout is pending and nothing is displayed later. *)
Theorem X3_typewriter_cleared_text_stops (i : Instance) (fuel n : nat) :
  text (props i) <> "" ->
  displayedText (setText "" i) = ""
  /\ currentIndex (setText "" i) = 0
  /\ timeout (setText "" i) = None
  /\ produce fuel (setText "" i) = []
  /\ after n (setText "" i) = setText "" i.
Proof.
  intros Hne. rewrite setText_restarts by congruence.
  repeat split.
  - destruct fuel; reflexivity.
  - apply after_idle. reflexivity.
Qed.

Lemma X3_typewriter_cleared_witness :
  produce 5 (setText "" (after 2 (mount (mkProps "hello" 30 300)))) = [].
Proof.
  apply (X3_typewriter_cleared_text_stops
           (after 2 (mount (mkProps "hello" 30 300))) 5 0).
  vm_compute. discriminate.
Defined.

Lemma props_eta (p : Props) : mkProps (text p) (speed p) (delay p) = p.
Proof. destruct p; reflexivity. Qed.

(** X4: a render with the same text leaves the animation where it is,
    but a change of the text and the change back start it afresh: the
    progress made is lost. *)
Theorem X4_typewriter_text_round_trip (i : Instance) (t : string) :
  setText (text (props i)) i = i
  /\ (t <> text (props i) ->
      setText (text (props i)) (setText t i) = mount (props i)).
Proof.
  split.
  - destruct i as [[t0 sp dl] d k tm].
    unfold setText, rerender, commitTyping, typingDepsSame, with_props.
    simpl. rewrite String.eqb_refl, !Nat.eqb_refl. reflexivity.
  - intros Hne. rewrite (setText_restarts i t Hne).
    rewrite setText_restarts by (simpl; congruence).
    simpl. rewrite props_eta. reflexivity.
Qed.

Lemma X4_typewriter_round_trip_witness :
  setText "hello" (setText "bye" (after 2 (mount (mkProps "hello" 30 300))))
  = mount (mkProps "hello" 30 300).
Proof.
  apply (proj2 (X4_typewriter_text_round_trip
                  (after 2 (mount (mkProps "hello" 30 300))) "bye")).
  vm_compute. discriminate.
Defined.

End TypewriterSequence.

Section TypingAnimationFacts.
Import TypingAnimation.

Lemma ta_mount_shown (p : Props) : mount p = shown p 0.
Proof. unfold mount, shown. rewrite substring_0_0. reflexivity. Qed.

Lemma ta_fire_shown (p : Props) (k : nat) :
  k < String.length (text p) -> fire (shown p k) = shown p (S k).
Proof.
  intros Hk. unfold fire, shown at 1. simpl.
  unfold typingEffect at 1.
  apply Nat.ltb_lt in Hk as Hb. rewrite Hb. simpl.
  unfold rerender, with_state, with_timeout. simpl.
  rewrite String.eqb_refl.
  unfold commitTyping, typingDepsSame. simpl.
  replace (k =? k + 1)%nat with false
    by (symmetry; apply Nat.eqb_neq; lia).
  simpl. unfold with_timeout, shown. simpl.
  rewrite appendCharAt_prefix by exact Hk.
  replace (k + 1) with (S k) by lia. reflexivity.
Qed.

Lemma ta_shown_all_idle (p : Props) :
  timeout (shown p (String.length (text p))) = None.
Proof.
  unfold shown, typingEffect. simpl. rewrite Nat.ltb_irrefl. reflexivity.
Qed.

Lemma ta_after_shown (p : Props) (n : nat) :
  forall k, k + n <= String.length (text p) ->
            after n (shown p k) = shown p (k + n).
Proof.
  induction n as [|n IH]; intros k Hk; simpl.
  - rewrite Nat.add_0_r. reflexivity.
  - rewrite ta_fire_shown by lia. rewrite IH by lia. f_equal. lia.
Qed.

Lemma ta_produce_shown (p : Props) (n : nat) :
  forall k fuel,
    k + n = String.length (text p) -> n <= fuel ->
    produce fuel (shown p k) = Typewriter.prefixes (text p) k n.
Proof.
  induction n as [|n IH]; intros k fuel Hk Hfuel.
  - replace k with (String.length (text p)) by lia.
    destruct fuel; simpl; [reflexivity|].
    unfold typingEffect. rewrite Nat.ltb_irrefl. reflexivity.
  - destruct fuel as [|fuel]; [lia|].
    assert (k < String.length (text p)) as Hlt by lia.
    simpl. unfold typingEffect at 1.
    apply Nat.ltb_lt in Hlt as Hb. rewrite Hb.
    change (fire _) with (fire (shown p k)).
    rewrite ta_fire_shown by exact Hlt. simpl.
    rewrite prefix_grows by exact Hlt.
    f_equal. apply IH; lia.
Qed.

Lemma ta_after_idle (n : nat) :
  forall i, timeout i = None -> after n i = i.
Proof.
  induction n as [|n IH]; intros i Hi; simpl; [reflexivity|].
  unfold fire at 1. rewrite Hi. apply IH, Hi.
Qed.

Lemma ta_after_add (a b : nat) :
  forall i, after (a + b) i = after b (after a i).
Proof. induction a; intros; simpl; [reflexivity | apply IHa]. Qed.

(** X5: the earlier typing animation displays the prefixes of its text,
    shortest first; every timeout waits [speed]; after as many timeouts
    as the text has characters the whole text is displayed and no timeout
    is pending, and so it stays.  For the empty text no timeout is ever
    armed. *)
Theorem X5_typing_animation_sequence (p : Props) :
  (forall fuel, String.length (text p) <= fuel ->
                produce fuel (mount p)
                = Typewriter.prefixes (text p) 0 (String.length (text p)))
  /\ (forall k, k < String.length (text p) ->
                after k (mount p)
                = mkInstance p (substring 0 k (text p)) k
                    (Some (Typewriter.mkTimeout (speed p) k (text p))))
  /\ (forall n, String.length (text p) <= n ->
                after n (mount p)
                = mkInstance p (text p) (String.length (text p)) None).
Proof.
  split; [|split].
  - intros fuel Hfuel. rewrite ta_mount_shown.
    apply ta_produce_shown; lia.
  - intros k Hk. rewrite ta_mount_shown, ta_after_shown by lia. simpl.
    unfold shown, typingEffect.
    apply Nat.ltb_lt in Hk. rewrite Hk. reflexivity.
  - intros n Hn.
    replace n with (String.length (text p) + (n - String.length (text p)))
      by lia.
    rewrite ta_after_add, ta_mount_shown, ta_after_shown by lia.
    change (0 + String.length (text p)) with (String.length (text p)).
    rewrite ta_after_idle by apply ta_shown_all_idle.
    unfold shown, typingEffect. rewrite Nat.ltb_irrefl, substring_whole.
    reflexivity.
Qed.

Lemma X5_typing_animation_witness :
  produce 2 (mount (mkProps "hi" 50)) = ["h"; "hi"]
  /\ timeout (after 1 (mount (mkProps "hi" 50)))
     = Some (Typewriter.mkTimeout 50 1 "hi")
  /\ timeout (after 2 (mount (mkProps "hi" 50))) = None.
Proof.
  split; [|split].
  - apply (proj1 (X5_typing_animation_sequence (mkProps "hi" 50)) 2).
    simpl. lia.
  - rewrite (proj1 (proj2 (X5_typing_animation_sequence (mkProps "hi" 50))) 1)
      by (simpl; lia).
    reflexivity.
  - rewrite (proj2 (proj2 (X5_typing_animation_sequence (mkProps "hi" 50))) 2)
      by (simpl; lia).
    reflexivity.
Defined.

(** X6: the two versions of the animation display the same sequence for
    every text, whatever the speeds and the delay; the later version arms
    one timeout more, the one that changes nothing. *)
Theorem X6_typing_animation_same_display
        (t : string) (speed speed' delay fuel : nat) :
  String.length t < fuel ->
  produce fuel (mount (mkProps t speed))
  = Typewriter.produce fuel (Typewriter.mount (Typewriter.mkProps t speed' delay))
  /\ timeout (after (String.length t) (mount (mkProps t speed))) = None
  /\ (t <> "" ->
      Typewriter.timeout
        (Typewriter.after (String.length t)
           (Typewriter.mount (Typewriter.mkProps t speed' delay)))
      <> None).
Proof.
  intros Hfuel.
  split; [|split].
  - rewrite ta_mount_shown.
    rewrite (ta_produce_shown (mkProps t speed) (String.length t))
      by (simpl; lia).
    rewrite produce_mount by (simpl; lia). reflexivity.
  - rewrite ta_mount_shown, ta_after_shown by (simpl; lia).
    apply (ta_shown_all_idle (mkProps t speed)).
  - intros Hne.
    assert (0 < String.length t) as Hpos.
    { destruct (String.length t) eqn:E; [|lia].
      apply length_zero_empty in E. contradiction. }
    rewrite mount_shown, after_shown by (simpl; lia). simpl.
    rewrite typingEffect_nonempty by (simpl; lia). discriminate.
Qed.

Lemma X6_typing_animation_same_display_witness :
  produce 6 (mount (mkProps "hello" 50))
  = Typewriter.produce 6
      (Typewriter.mount (Typewriter.mkProps "hello" 30 300))
  /\ Typewriter.timeout
       (Typewriter.after 5
          (Typewriter.mount (Typewriter.mkProps "hello" 30 300)))
     <> None.
Proof.
  split.
  - apply (X6_typing_animation_same_display "hello" 50 30 300 6).
    simpl. lia.
  - apply (X6_typing_animation_same_display "hello" 50 30 300 6).
    + simpl. lia.
    + discriminate.
Defined.

Lemma ta_commitTyping_changed (prev cur : Instance) :
  typingDepsSame prev cur = false ->
  commitTyping prev cur
  = with_timeout (typingEffect (props cur) (currentIndex cur)) cur.
Proof. unfold commitTyping. intros ->. reflexivity. Qed.

(** X7: in the earlier typing animation too, a change of the text at any
    point gives the instance a fresh mount with the new text gives, and
    from there the prefixes of the new text are displayed. *)
Theorem X7_typing_animation_restarts (i : Instance) (t : string) (fuel : nat) :
  t <> text (props i) ->
  String.length t <= fuel ->
  setText t i = mount (mkProps t (speed (props i)))
  /\ produce fuel (setText t i)
     = Typewriter.prefixes t 0 (String.length t).
Proof.
  intros Hne Hfuel.
  assert (setText t i = mount (mkProps t (speed (props i)))) as Hrestart.
  { destruct i as [[t0 sp] d k tm]. simpl in *.
    assert (String.eqb t0 t = false) as Hb.
    { apply String.eqb_neq. congruence. }
    unfold setText, rerender, with_props. simpl. rewrite Hb.
    rewrite (ta_commitTyping_changed (mkInstance (mkProps t0 sp) d k tm)).
    2:{ unfold typingDepsSame. simpl. rewrite Hb, andb_false_r. reflexivity. }
    unfold resetEffect, with_state, with_timeout, mount. simpl.
    destruct (k =? 0)%nat eqn:E.
    - apply Nat.eqb_eq in E. subst k.
      unfold commitTyping, typingDepsSame. simpl.
      rewrite String.eqb_refl, !Nat.eqb_refl. reflexivity.
    - rewrite ta_commitTyping_changed.
      + reflexivity.
      + unfold typingDepsSame. simpl. rewrite E. reflexivity. }
  split; [exact Hrestart|].
  rewrite Hrestart, ta_mount_shown.
  apply (ta_produce_shown (mkProps t (speed (props i)))); simpl; lia.
Qed.

Lemma X7_typing_animation_restarts_witness :
  produce 3 (setText "bye" (after 2 (mount (mkProps "hello" 50))))
  = ["b"; "by"; "bye"].
Proof.
  apply (X7_typing_animation_restarts
           (after 2 (mount (mkProps "hello" 50))) "bye" 3).
  - vm_compute. discriminate.
  - simpl. lia.
Defined.

End TypingAnimationFacts.

(* ===================================================================== *)
(** ** More on the wizard of StepForm.jsx                                 *)
(* ===================================================================== *)

Section WizardSessions.
Import StepForm.

Lemma dispatch_step_le (a : Action) (w : Wizard) :
  step w <= step (dispatch a w).
Proof.
  destruct a as [input|input|fl| | | |]; simpl.
  - destruct (shows 1 w) eqn:Hshow.
    + apply shows_step in Hshow as [_ H1].
      destruct (submitStep1_cases input w) as [-> | [[_ ->] | [m ->]]];
        simpl; lia.
    + rewrite submitStep1_hidden by exact Hshow. lia.
  - destruct (submitStep2_cases input w) as [-> | [(_ & H2 & ->) | [m ->]]];
      simpl; lia.
  - unfold selectFiles. destruct (shows 3 w); simpl; lia.
  - unfold advanceSkippingFiles, handleSkipFiles.
    destruct (shows 3 w) eqn:Hshow; simpl; [|lia].
    apply shows_step in Hshow as [_ H3].
    destruct (negb _); simpl; lia.
  - unfold advanceWithFiles.
    destruct (shows 3 w) eqn:Hshow; simpl; [|lia].
    apply shows_step in Hshow as [_ H3].
    destruct (0 <? _)%nat; simpl; lia.
  - destruct (submit_frame w) as [-> _]. lia.
  - destruct (promiseSettles_frame w) as [-> _]. lia.
Qed.

Lemma run_app (l1 l2 : list Action) (w : Wizard) :
  run (l1 ++ l2) w = run l2 (run l1 w).
Proof. unfold run. apply fold_left_app. Qed.

Lemma dispatch_atReviewWhenSubmitting (a : Action) (w : Wizard) :
  submissionInv w ->
  atReviewWhenSubmitting w -> atReviewWhenSubmitting (dispatch a w).
Proof.
  intros (Haw & _ & _) (Hrange & Hbusy & Hdone).
  destruct a as [input|input|fl| | | |]; simpl.
  - destruct (shows 1 w) eqn:Hshow.
    + apply shows_step in Hshow as [Hnot H1].
      destruct (submitStep1_cases input w) as [-> | [[_ ->] | [m ->]]];
        unfold atReviewWhenSubmitting; simpl; try tauto.
      split; [lia|]. split; intros H.
      * apply Hbusy in H. lia.
      * congruence.
    + rewrite submitStep1_hidden by exact Hshow.
      unfold atReviewWhenSubmitting. tauto.
  - destruct (shows 2 w) eqn:Hshow.
    + apply shows_step in Hshow as [Hnot H2].
      destruct (submitStep2_cases input w)
        as [-> | [(_ & _ & ->) | [m ->]]];
        unfold atReviewWhenSubmitting; simpl; try tauto.
      split; [lia|]. split; intros H.
      * apply Hbusy in H. lia.
      * congruence.
    + rewrite submitStep2_hidden by exact Hshow.
      unfold atReviewWhenSubmitting. tauto.
  - unfold selectFiles. destruct (shows 3 w);
      unfold atReviewWhenSubmitting; simpl; tauto.
  - unfold advanceSkippingFiles, handleSkipFiles.
    destruct (shows 3 w) eqn:Hshow; simpl;
      [|unfold atReviewWhenSubmitting; tauto].
    apply shows_step in Hshow as [Hnot H3].
    destruct (negb _); unfold atReviewWhenSubmitting; simpl; [|tauto].
    split; [lia|]. split; intros H.
    + apply Hbusy in H. lia.
    + congruence.
  - unfold advanceWithFiles.
    destruct (shows 3 w) eqn:Hshow; simpl;
      [|unfold atReviewWhenSubmitting; tauto].
    apply shows_step in Hshow as [Hnot H3].
    destruct (0 <? _)%nat; unfold atReviewWhenSubmitting; simpl; [|tauto].
    split; [lia|]. split; intros H.
    + apply Hbusy in H. lia.
    + congruence.
  - destruct (shows 4 w) eqn:Hshow.
    + apply shows_step in Hshow as Hs. destruct Hs as [Hnot H4].
      destruct (isSubmitting w) eqn:Hb.
      * rewrite submit_disabled by exact Hb.
        unfold atReviewWhenSubmitting. rewrite Hb. tauto.
      * rewrite submit_enabled by assumption.
        unfold atReviewWhenSubmitting. simpl.
        split; [lia|]. split; intros H; [tauto | congruence].
    + unfold submit. rewrite Hshow. simpl.
      unfold atReviewWhenSubmitting. tauto.
  - unfold promiseSettles. rewrite Haw.
    destruct (isSubmitting w) eqn:Hb.
    + destruct (Hbusy eq_refl) as [H4 Hnot].
      unfold atReviewWhenSubmitting. simpl.
      split; [lia|]. split; intros H; [discriminate | tauto].
    + unfold atReviewWhenSubmitting. rewrite Hb. tauto.
Qed.

Lemma reachable_atReviewWhenSubmitting (w : Wizard) :
  reachable w -> atReviewWhenSubmitting w.
Proof.
  induction 1 as [|a w Hreach IH].
  - unfold atReviewWhenSubmitting. simpl.
    split; [lia|]. split; discriminate.
  - apply dispatch_atReviewWhenSubmitting;
      [apply reachable_submissionInv, Hreach | exact IH].
Qed.

Lemma reachable_namedAndDescribed (w : Wizard) :
  reachable w -> namedAndDescribed w.
Proof.
  induction 1 as [|a w _ IH].
  - unfold namedAndDescribed, initial. simpl. lia.
  - apply dispatch_namedAndDescribed, IH.
Qed.

(** X8: no operation takes the wizard back: the step never decreases
    along a session, from any state; and a session from the initial
    state is always on one of the steps 1 to 4. *)
Theorem X8_step_never_decreases :
  (forall (actions : list Action) (w : Wizard),
      step w <= step (run actions w))
  /\ (forall w : Wizard, reachable w -> 1 <= step w <= 4).
Proof.
  split.
  - induction actions as [|a rest IH] using rev_ind; intros w.
    + simpl. lia.
    + rewrite run_app. simpl.
      pose proof (IH w). pose proof (dispatch_step_le a (run rest w)). lia.
  - intros w Hreach. apply reachable_atReviewWhenSubmitting, Hreach.
Qed.

Lemma X8_step_range_witness :
  1 <= step (run [SubmitStep1 "ABC"; AdvanceSkippingFiles; Submit] initial)
  <= 4.
Proof.
  apply (proj2 X8_step_never_decreases).
  apply reachable_run. constructor.
Defined.

Lemma hidden_when_submitted (n : nat) (w : Wizard) :
  submitSuccess w = true -> shows n w = false.
Proof. unfold shows. intros ->. reflexivity. Qed.

(** X9: once a submission has succeeded the session is over: whatever
    the user does, and whatever timer elapses, the state stays as it is
    (the component has no way back from the success panel). *)
Theorem X9_success_is_final (w : Wizard) (a : Action) :
  reachable w -> submitSuccess w = true -> dispatch a w = w.
Proof.
  intros Hreach Hdone.
  destruct a as [input|input|fl| | | |]; simpl.
  - apply submitStep1_hidden, hidden_when_submitted, Hdone.
  - apply submitStep2_hidden, hidden_when_submitted, Hdone.
  - unfold selectFiles. rewrite hidden_when_submitted by exact Hdone.
    reflexivity.
  - unfold advanceSkippingFiles.
    rewrite hidden_when_submitted by exact Hdone. reflexivity.
  - unfold advanceWithFiles.
    rewrite hidden_when_submitted by exact Hdone. reflexivity.
  - unfold submit. rewrite hidden_when_submitted by exact Hdone.
    reflexivity.
  - destruct (reachable_submissionInv w Hreach) as (Haw & _).
    destruct (reachable_atReviewWhenSubmitting w Hreach) as (_ & _ & Hd).
    destruct (Hd Hdone) as [_ Hidle].
    unfold promiseSettles. rewrite Haw, Hidle. reflexivity.
Qed.

Lemma X9_success_is_final_witness :
  dispatch (SubmitStep1 "another name") (promiseSettles (submit atReview))
  = promiseSettles (submit atReview).
Proof.
  apply X9_success_is_final.
  - apply (reachable_run [Submit; PromiseSettles] atReview).
    unfold atReview. apply reachable_run. constructor.
  - reflexivity.
Defined.

(** X10: a submission is only ever in flight or succeeded at step 4, and
    then the stored project name and analysis description are values the
    validators of steps 1 and 2 accept. *)
Theorem X10_submitted_data_is_valid (w : Wizard) :
  reachable w ->
  submissionStatus w <> Idle ->
  step w = 4
  /\ validate1 (projectName w) = Valid
  /\ validate2 (analysisDescription w) = Valid.
Proof.
  intros Hreach Hstatus.
  destruct (reachable_submissionInv w Hreach) as (_ & Herr & _).
  destruct (reachable_atReviewWhenSubmitting w Hreach) as (_ & Hbusy & Hdone).
  destruct (reachable_namedAndDescribed w Hreach) as [Hname Hdesc].
  assert (step w = 4) as H4.
  { unfold submissionStatus in Hstatus. rewrite Herr in Hstatus.
    destruct (submitSuccess w); [apply Hdone; reflexivity|].
    destruct (isSubmitting w); [apply Hbusy; reflexivity|].
    contradiction. }
  split; [exact H4|]. split.
  - apply validate1_Valid, Hname. lia.
  - apply validate2_Valid, Hdesc. lia.
Qed.

Lemma X10_submitted_data_witness :
  validate1 (projectName (submit atReview)) = Valid
  /\ validate2 (analysisDescription (submit atReview)) = Valid.
Proof.
  apply (X10_submitted_data_is_valid (submit atReview)).
  - apply (reachable_run [Submit] atReview).
    unfold atReview. apply reachable_run. constructor.
  - vm_compute. discriminate.
Defined.

(** X11: what was entered on a step cannot be changed once the step is
    passed: from step 2 on no operation changes the project name, from
    step 3 on none changes the analysis description, and at step 4 none
    changes the selected files. *)
Theorem X11_passed_steps_are_kept (a : Action) (w : Wizard) :
  (2 <= step w -> projectName (dispatch a w) = projectName w)
  /\ (3 <= step w ->
      analysisDescription (dispatch a w) = analysisDescription w)
  /\ (4 <= step w -> files (dispatch a w) = files w).
Proof.
  destruct a as [input|input|fl| | | |]; simpl.
  - destruct (shows 1 w) eqn:Hshow.
    + apply shows_step in Hshow as [_ H1].
      repeat split; intros; lia.
    + rewrite submitStep1_hidden by exact Hshow. tauto.
  - destruct (shows 2 w) eqn:Hshow.
    + apply shows_step in Hshow as [_ H2].
      destruct (submitStep2_cases input w)
        as [-> | [(_ & _ & ->) | [m ->]]]; simpl;
        repeat split; intros; reflexivity || lia.
    + rewrite submitStep2_hidden by exact Hshow. tauto.
  - unfold selectFiles. destruct (shows 3 w) eqn:Hshow; [|tauto].
    apply shows_step in Hshow as [_ H3].
    simpl. repeat split; intros; reflexivity || lia.
  - unfold advanceSkippingFiles.
    destruct (shows 3 w && _); simpl; tauto.
  - unfold advanceWithFiles.
    destruct (shows 3 w && _); simpl; tauto.
  - destruct (submit_frame w) as (_ & -> & -> & ->). tauto.
  - destruct (promiseSettles_frame w) as (_ & -> & -> & ->). tauto.
Qed.

Lemma X11_passed_steps_witness :
  projectName (dispatch (SubmitStep1 "another name") atReview) = "ABC"
  /\ files (dispatch (SelectFiles [mkFile "late.txt" 1]) atReview) = [].
Proof.
  split.
  - apply (X11_passed_steps_are_kept (SubmitStep1 "another name") atReview).
    simpl. lia.
  - apply (X11_passed_steps_are_kept
             (SelectFiles [mkFile "late.txt" 1]) atReview).
    simpl. lia.
Defined.

(** X12: a whole session.  For every name of at least 3 characters,
    every description of at least 10 and every selection of files, the
    user who submits the name, submits the description, selects the
    files, clicks SKIP and Next (one of the two is not there) and then
    DONE ends, when the timer has elapsed, on the success panel; the
    wizard holds exactly what was entered, the form data built from it
    lists the name, the description and every file in order, and the
    only collaborator called was the 1500 ms timer. *)
Theorem X12_session_succeeds (n d : string) (fl : list File) :
  3 <= String.length n ->
  10 <= String.length d ->
  run [SubmitStep1 n; SubmitStep2 d; SelectFiles fl;
       AdvanceSkippingFiles; AdvanceWithFiles; Submit; PromiseSettles]
      initial
  = mkWizard 4 n d fl false None true (mkForm n None) (mkForm d None)
             [] [SetTimeout 1500]
  /\ submissionStatus
       (run [SubmitStep1 n; SubmitStep2 d; SelectFiles fl;
             AdvanceSkippingFiles; AdvanceWithFiles; Submit; PromiseSettles]
            initial)
     = Succeeded
  /\ formData
       (run [SubmitStep1 n; SubmitStep2 d; SelectFiles fl;
             AdvanceSkippingFiles; AdvanceWithFiles; Submit; PromiseSettles]
            initial)
     = ("projectName", Text n) :: ("analysisDescription", Text d)
       :: map (fun file => ("files", Blob file)) fl.
Proof.
  intros Hn Hd.
  assert (run [SubmitStep1 n; SubmitStep2 d; SelectFiles fl;
               AdvanceSkippingFiles; AdvanceWithFiles; Submit;
               PromiseSettles] initial
          = mkWizard 4 n d fl false None true (mkForm n None)
                     (mkForm d None) [] [SetTimeout 1500]) as Hrun.
  { unfold run. cbn [fold_left dispatch].
    rewrite (submitStep1_valid n initial eq_refl)
      by (apply validate1_Valid; exact Hn).
    cbn [analysisDescription files isSubmitting submitError submitSuccess
         formStep2 awaited effects initial].
    rewrite submitStep2_valid
      by (reflexivity || (apply validate2_Valid; exact Hd)).
    cbn [projectName files isSubmitting submitError submitSuccess
         formStep1 awaited effects].
    destruct fl as [|f fl]; reflexivity. }
  rewrite Hrun. split; [reflexivity|]. split; [reflexivity|].
  unfold formData. simpl. destruct fl; reflexivity.
Qed.

Lemma X12_session_witness :
  submissionStatus
    (run [SubmitStep1 "Q3 sales"; SubmitStep2 "sales by region, 2024";
          SelectFiles [mkFile "q3.csv" 2048];
          AdvanceSkippingFiles; AdvanceWithFiles; Submit; PromiseSettles]
         initial)
  = Succeeded.
Proof.
  apply (X12_session_succeeds "Q3 sales" "sales by region, 2024"
                              [mkFile "q3.csv" 2048]); simpl; lia.
Defined.

(** X13: a value the validator of its step rejects changes neither the
    step nor anything the wizard holds, and calls no collaborator; when
    the form of the step is on screen the message of the validator is
    recorded among the errors of the form. *)
Theorem X13_rejected_values_change_nothing (input : string) (w : Wizard) :
  (validate1 input <> Valid ->
   step (submitStep1 input w) = step w
   /\ projectName (submitStep1 input w) = projectName w
   /\ analysisDescription (submitStep1 input w) = analysisDescription w
   /\ files (submitStep1 input w) = files w
   /\ submissionStatus (submitStep1 input w) = submissionStatus w
   /\ effects (submitStep1 input w) = effects w
   /\ (shows 1 w = true ->
       fieldError (formStep1 (submitStep1 input w))
       = Some (if (String.length input =? 0)%nat
               then "Project name is required"
               else "Project name must be at least 3 characters")))
  /\ (validate2 input <> Valid ->
      step (submitStep2 input w) = step w
      /\ projectName (submitStep2 input w) = projectName w
      /\ analysisDescription (submitStep2 input w) = analysisDescription w
      /\ files (submitStep2 input w) = files w
      /\ submissionStatus (submitStep2 input w) = submissionStatus w
      /\ effects (submitStep2 input w) = effects w
      /\ (shows 2 w = true ->
          fieldError (formStep2 (submitStep2 input w))
          = Some (if (String.length input =? 0)%nat
                  then "Analysis description is required"
                  else "Please provide more details (at least 10 characters)"))).
Proof.
  split; intros Hbad.
  - destruct (shows 1 w) eqn:Hshow.
    + destruct (validate1 input) as [|field message] eqn:Hv; [congruence|].
      rewrite (submitStep1_invalid input field message w Hshow Hv).
      simpl. repeat split. intros _.
      rewrite validate1_by_length in Hv.
      destruct (String.length input =? 0)%nat; [congruence|].
      destruct (3 <=? String.length input)%nat; congruence.
    + rewrite submitStep1_hidden by exact Hshow.
      repeat split. discriminate.
  - destruct (shows 2 w) eqn:Hshow.
    + destruct (validate2 input) as [|field message] eqn:Hv; [congruence|].
      rewrite (submitStep2_invalid input field message w Hshow Hv).
      simpl. repeat split. intros _.
      rewrite validate2_by_length in Hv.
      destruct (String.length input =? 0)%nat; [congruence|].
      destruct (10 <=? String.length input)%nat; congruence.
    + rewrite submitStep2_hidden by exact Hshow.
      repeat split. discriminate.
Qed.

Lemma X13_rejected_values_witness :
  step (submitStep2 "too short"
          (run [SubmitStep1 "ABC"] initial)) = 2
  /\ fieldError (formStep2 (submitStep2 "too short"
                              (run [SubmitStep1 "ABC"] initial)))
     = Some "Please provide more details (at least 10 characters)".
Proof.
  pose proof (proj2 (X13_rejected_values_change_nothing
                       "too short" (run [SubmitStep1 "ABC"] initial)))
    as H.
  assert (validate2 "too short" <> Valid) as Hbad
      by (vm_compute; discriminate).
  split.
  - apply (H Hbad).
  - apply (H Hbad). reflexivity.
Defined.

(** X14: selecting files replaces the selection, it never adds to it:
    two selections in a row leave what the second alone leaves; outside
    step 3 a selection changes nothing; and after an empty selection the
    SKIP button is the one that moves on. *)
Theorem X14_selection_is_replaced (fl1 fl2 : list File) (w : Wizard) :
  selectFiles fl2 (selectFiles fl1 w) = selectFiles fl2 w
  /\ (shows 3 w = true -> files (selectFiles fl1 w) = fl1)
  /\ (shows 3 w = false -> selectFiles fl1 w = w)
  /\ (shows 3 w = true ->
      step (advanceSkippingFiles (selectFiles [] (selectFiles fl1 w))) = 4
      /\ advanceWithFiles (selectFiles [] (selectFiles fl1 w))
         = selectFiles [] w).
Proof.
  unfold selectFiles, handleFileChange, advanceSkippingFiles,
    advanceWithFiles, handleSkipFiles.
  destruct (shows 3 w) eqn:Hshow.
  - assert (forall fl v, shows 3 (setFiles fl v) = shows 3 v) as Hs
        by reflexivity.
    repeat (rewrite ?Hs, ?Hshow; simpl).
    repeat split. discriminate.
  - rewrite Hshow. repeat split; discriminate.
Qed.

Lemma X14_selection_witness :
  files (selectFiles [mkFile "b.txt" 2]
           (selectFiles [mkFile "a.txt" 1]
              (run [SubmitStep1 "ABC";
                    SubmitStep2 "a sufficiently long description"]
                   initial)))
  = [mkFile "b.txt" 2].
Proof.
  rewrite (proj1 (X14_selection_is_replaced [mkFile "a.txt" 1]
                    [mkFile "b.txt" 2] _)).
  apply (X14_selection_is_replaced [mkFile "b.txt" 2] []). reflexivity.
Defined.

End WizardSessions.

(* ===================================================================== *)
(** ** More on the validators                                             *)
(* ===================================================================== *)

Section ValidatorAlgebra.

Lemma string_length_app (s t : string) :
  String.length (s ++ t) = String.length s + String.length t.
Proof. induction s; simpl; [reflexivity | rewrite IHs; reflexivity]. Qed.

(** X15: the validators of steps 1 and 2 look at the length of the value
    and at nothing else: two values of the same length get the same
    answer; a valid value stays valid when text is added before or after
    it; and every valid description would be a valid name. *)
Theorem X15_validation_by_length (s t : string) :
  (String.length s = String.length t ->
   validate1 s = validate1 t /\ validate2 s = validate2 t)
  /\ (validate1 s = Valid ->
      validate1 (s ++ t) = Valid /\ validate1 (t ++ s) = Valid)
  /\ (validate2 s = Valid ->
      validate2 (s ++ t) = Valid /\ validate2 (t ++ s) = Valid)
  /\ (validate2 s = Valid -> validate1 s = Valid).
Proof.
  split; [|split; [|split]].
  - intros Hlen. rewrite !validate1_by_length, !validate2_by_length, Hlen.
    split; reflexivity.
  - rewrite !validate1_Valid, !string_length_app. lia.
  - rewrite !validate2_Valid, !string_length_app. lia.
  - rewrite validate1_Valid, validate2_Valid. lia.
Qed.

Lemma X15_validation_by_length_witness :
  validate1 "abc" = validate1 "   "
  /\ validate1 ("Q3" ++ " sales") = Valid
  /\ validate1 "0123456789" = Valid.
Proof.
  split; [|split].
  - apply (proj1 (X15_validation_by_length "abc" "   ")). reflexivity.
  - apply (proj1 (proj2 (X15_validation_by_length " sales" "Q3"))).
    reflexivity.
  - apply (proj2 (proj2 (proj2 (X15_validation_by_length "0123456789" "")))).
    reflexivity.
Defined.

Lemma validate3_Valid (fl : list File) :
  validate3 (Some fl) = Valid
  <-> forall f, In f fl -> (size f <= 5242880)%N.
Proof.
  rewrite validate3_by_test, fileSize_Some, five_MiB.
  destruct (forallb _ fl) eqn:E.
  - rewrite forallb_forall in E. split; [intros _ f Hf|reflexivity].
    apply N.leb_le, E, Hf.
  - split; [discriminate|]. intros H. exfalso.
    assert (forallb (fun file => (size file <=? 5242880)%N) fl = true) as E'.
    { apply forallb_forall. intros f Hf. apply N.leb_le, H, Hf. }
    congruence.
Qed.

(** X16: the file validator of the strict variant judges a selection
    file by file: two selections put together are valid exactly when
    both are, and every selection made of files of a valid selection
    (fewer files, another order, repetitions) is valid. *)
Theorem X16_file_validation_composes (fl1 fl2 : list File) :
  (validate3 (Some (fl1 ++ fl2)) = Valid
   <-> validate3 (Some fl1) = Valid /\ validate3 (Some fl2) = Valid)
  /\ (incl fl2 fl1 -> validate3 (Some fl1) = Valid ->
      validate3 (Some fl2) = Valid).
Proof.
  rewrite !validate3_Valid. split.
  - split.
    + intros H. split; intros f Hf; apply H, in_or_app; tauto.
    + intros [H1 H2] f Hf. apply in_app_or in Hf as [Hf|Hf]; auto.
  - intros Hincl H f Hf. apply H, Hincl, Hf.
Qed.

Lemma X16_file_validation_witness :
  validate3 (Some [mkFile "b" 2; mkFile "a" 1]) = Valid.
Proof.
  apply (proj2 (X16_file_validation_composes
                  [mkFile "a" 1; mkFile "b" 2; mkFile "c" 3]
                  [mkFile "b" 2; mkFile "a" 1])).
  - intros f [<-|[<-|[]]]; simpl; tauto.
  - reflexivity.
Defined.

End ValidatorAlgebra.

(* ===================================================================== *)
(** ** The strict variant                                                 *)
(* ===================================================================== *)

Section StrictVariant.
Import MultiStepForm.

Lemma m_shows_step (n : nat) (w : Wizard) :
  shows n w = true <-> submitSuccess w = false /\ step w = n.
Proof.
  unfold shows. rewrite andb_true_iff, negb_true_iff, Nat.eqb_eq. tauto.
Qed.

Lemma m_submitStep1_valid (input : string) (w : Wizard) :
  shows 1 w = true -> validate1 input = Valid ->
  submitStep1 input w
  = mkWizard 2 (uploadedFiles w) (isSubmitting w) (submitError w)
             (submitSuccess w) (StepForm.mkForm input None) (formStep2 w)
             (formStep3 w) (pending w) (effects w).
Proof.
  unfold validate1. intros Hshow Hvalid.
  unfold submitStep1. rewrite Hshow.
  unfold handleStep1, handleSubmit.
  cbn [StepForm.fieldValue formStep1 setFormStep1]. rewrite Hvalid.
  unfold onStep1Submit, triggerStep1, trigger.
  cbn [StepForm.fieldValue formStep1 setFormStep1]. rewrite Hvalid.
  reflexivity.
Qed.

Lemma m_submitStep1_invalid (input field message : string) (w : Wizard) :
  shows 1 w = true -> validate1 input = Invalid field message ->
  submitStep1 input w
  = setFormStep1 (StepForm.mkForm input (Some message)) w.
Proof.
  unfold validate1. intros Hshow Hinvalid.
  unfold submitStep1. rewrite Hshow.
  unfold handleStep1, handleSubmit.
  cbn [StepForm.fieldValue formStep1 setFormStep1]. rewrite Hinvalid.
  reflexivity.
Qed.

Lemma m_submitStep2_valid (input : string) (w : Wizard) :
  shows 2 w = true -> validate2 input = Valid ->
  submitStep2 input w
  = mkWizard 3 (uploadedFiles w) (isSubmitting w) (submitError w)
             (submitSuccess w) (formStep1 w) (StepForm.mkForm input None)
             (formStep3 w) (pending w) (effects w).
Proof.
  unfold validate2. intros Hshow Hvalid.
  unfold submitStep2. rewrite Hshow.
  unfold handleStep2, handleSubmit.
  cbn [StepForm.fieldValue formStep2 setFormStep2]. rewrite Hvalid.
  unfold onStep2Submit, triggerStep2, trigger.
  cbn [StepForm.fieldValue formStep2 setFormStep2]. rewrite Hvalid.
  reflexivity.
Qed.

Lemma m_submitStep2_invalid (input field message : string) (w : Wizard) :
  shows 2 w = true -> validate2 input = Invalid field message ->
  submitStep2 input w
  = setFormStep2 (StepForm.mkForm input (Some message)) w.
Proof.
  unfold validate2. intros Hshow Hinvalid.
  unfold submitStep2. rewrite Hshow.
  unfold handleStep2, handleSubmit.
  cbn [StepForm.fieldValue formStep2 setFormStep2]. rewrite Hinvalid.
  reflexivity.
Qed.

(** Done with a selection the validator accepts posts the request. *)
Lemma done_valid (value : option (list File)) (w : Wizard) :
  shows 3 w = true -> isSubmitting w = false -> validate3 value = Valid ->
  done value w
  = mkWizard (step w) (uploadedFiles w) true None (submitSuccess w)
             (formStep1 w) (formStep2 w) (mkFilesStore value None)
             (pending w + 1)
             (effects w
              ++ [HttpPost "https://your-api-endpoint.com/projects"
                           (formData w)]).
Proof.
  unfold validate3. intros Hshow Hidle Hvalid.
  unfold done. rewrite Hshow, Hidle. simpl andb. cbv iota.
  unfold handleStep3. cbn [filesValue formStep3 setFormStep3].
  rewrite Hvalid. reflexivity.
Qed.

(** Done with a selection the validator rejects posts nothing. *)
Lemma done_invalid (value : option (list File)) (field message : string)
      (w : Wizard) :
  shows 3 w = true -> isSubmitting w = false ->
  validate3 value = Invalid field message ->
  done value w = setFormStep3 (mkFilesStore value (Some message)) w.
Proof.
  unfold validate3. intros Hshow Hidle Hinvalid.
  unfold done. rewrite Hshow, Hidle. simpl andb. cbv iota.
  unfold handleStep3. cbn [filesValue formStep3 setFormStep3].
  rewrite Hinvalid. reflexivity.
Qed.

Lemma done_disabled (value : option (list File)) (w : Wizard) :
  shows 3 w && negb (isSubmitting w) = false -> done value w = w.
Proof. unfold done. intros ->. reflexivity. Qed.

Lemma posted_app (w : Wizard) (e : Effect) :
  flat_map (fun e => match e with HttpPost _ fd => [fd] | _ => [] end)
           (effects w ++ [e])
  = posted w ++ match e with HttpPost _ fd => [fd] | _ => [] end.
Proof.
  unfold posted. rewrite flat_map_app. simpl. rewrite app_nil_r.
  reflexivity.
Qed.

Ltac feed_steps :=
  repeat match goal with
         | H : ?n <= step ?w -> _ |- _ =>
             let Hn := fresh in
             destruct (le_lt_dec n (step w)) as [Hn|Hn];
             [specialize (H Hn) | clear H]
         end.

Ltac session_inv :=
  unfold sessionInv, posted in *;
  repeat match goal with H : _ /\ _ |- _ => destruct H end;
  feed_steps; simpl in *;
  rewrite ?flat_map_app in *; simpl in *; rewrite ?app_nil_r in *;
  intuition (try lia; try congruence; try discriminate).

Lemma m_dispatch_sessionInv (a : Action) (w : Wizard) :
  sessionInv w -> sessionInv (dispatch a w).
Proof.
  intros Hinv.
  destruct a as [input|input| | |value| | |r]; simpl.
  - destruct (shows 1 w) eqn:Hshow.
    + apply m_shows_step in Hshow as Hs. destruct Hs as [Hnot H1].
      destruct (validate1 input) as [|field message] eqn:Hv.
      * rewrite m_submitStep1_valid by assumption. session_inv.
      * rewrite (m_submitStep1_invalid input field message) by assumption.
        session_inv.
    + unfold submitStep1. rewrite Hshow. exact Hinv.
  - destruct (shows 2 w) eqn:Hshow.
    + apply m_shows_step in Hshow as Hs. destruct Hs as [Hnot H2].
      destruct (validate2 input) as [|field message] eqn:Hv.
      * rewrite m_submitStep2_valid by assumption. session_inv.
      * rewrite (m_submitStep2_invalid input field message) by assumption.
        session_inv.
    + unfold submitStep2. rewrite Hshow. exact Hinv.
  - unfold goBack.
    destruct (shows 2 w) eqn:H2; [|destruct (shows 3 w) eqn:H3;
                                   [|destruct (shows 4 w) eqn:H4]];
      try exact Hinv.
    + apply m_shows_step in H2 as [_ H2]. session_inv.
    + apply m_shows_step in H3 as [_ H3]. session_inv.
    + apply m_shows_step in H4 as [_ H4]. session_inv.
  - unfold skip, handleSkipFiles.
    destruct (shows 3 w) eqn:H3; [|exact Hinv].
    apply m_shows_step in H3 as [_ H3]. session_inv.
  - destruct (shows 3 w && negb (isSubmitting w)) eqn:Hon.
    + apply andb_true_iff in Hon as [Hshow Hidle].
      apply negb_true_iff in Hidle.
      apply m_shows_step in Hshow as Hs. destruct Hs as [Hnot H3].
      destruct (validate3 value) as [|field message] eqn:Hv.
      * rewrite done_valid by assumption.
        assert (formData w = []) as Hfd.
        { unfold formData.
          destruct Hinv as (_ & -> & _). reflexivity. }
        rewrite Hfd. unfold sessionInv in Hinv. rewrite Hidle in Hinv.
        session_inv.
        apply Forall_app. split; [assumption | repeat constructor].
      * rewrite (done_invalid value field message) by assumption.
        session_inv.
    + rewrite done_disabled by exact Hon. exact Hinv.
  - unfold submitProject.
    destruct (shows 4 w && negb (isSubmitting w)) eqn:Hon; [|exact Hinv].
    apply andb_true_iff in Hon as [Hshow Hidle].
    apply negb_true_iff in Hidle.
    apply m_shows_step in Hshow as Hs. destruct Hs as [Hnot H4].
    unfold onStep3Submit.
    assert (formData w = []) as Hfd.
    { unfold formData. destruct Hinv as (_ & -> & _). reflexivity. }
    rewrite Hfd. unfold sessionInv in Hinv. rewrite Hidle in Hinv.
        session_inv.
    apply Forall_app. split; [assumption | repeat constructor].
  - unfold startNew.
    destruct (submitSuccess w) eqn:Hdone; [|exact Hinv].
    session_inv.
  - unfold requestSettles.
    destruct (pending w) as [|n] eqn:Hpend; [exact Hinv|].
    assert (isSubmitting w = true) as Hbusy.
    { destruct Hinv as (_ & _ & Hp & _).
      destruct (isSubmitting w); [reflexivity | congruence]. }
    assert (submitSuccess w = false) as Hnot.
    { destruct Hinv as (_ & _ & _ & _ & Hd & _).
      destruct (submitSuccess w); [|reflexivity].
      destruct (Hd eq_refl). congruence. }
    unfold sessionInv in Hinv. rewrite Hbusy in Hinv.
    destruct r as [data|error]; unfold onStep3Submit_settled;
      session_inv.
Qed.

Lemma m_reachable_sessionInv (w : Wizard) :
  reachable w -> sessionInv w.
Proof.
  induction 1 as [|a w _ IH].
  - unfold sessionInv, initial, posted. simpl.
    repeat split; try lia; try discriminate; constructor.
  - apply m_dispatch_sessionInv, IH.
Qed.

Lemma m_reachable_run (actions : list Action) :
  forall w, reachable w -> reachable (run actions w).
Proof.
  unfold run. induction actions as [|a rest IH]; intros w Hw; simpl.
  - exact Hw.
  - apply IH. constructor. exact Hw.
Qed.

(** X17: in the strict variant no request ever carries a file.  The
    file input hands its changes to the form library, not to
    [handleFileChange], so [uploadedFiles] is empty in every state a
    session can reach and every form data posted is empty, whatever was
    selected. *)
Theorem X17_strict_requests_carry_no_file (w : Wizard) :
  reachable w ->
  uploadedFiles w = []
  /\ formData w = []
  /\ Forall (fun fd => fd = []) (posted w).
Proof.
  intros Hreach.
  destruct (m_reachable_sessionInv w Hreach)
    as (_ & Hup & _ & _ & _ & _ & _ & Hposted).
  split; [exact Hup|]. split; [|exact Hposted].
  unfold formData. rewrite Hup. reflexivity.
Qed.

Lemma X17_strict_requests_witness :
  Forall (fun fd => fd = [])
         (posted (run [SubmitStep1 "ABC";
                       SubmitStep2 "a sufficiently long description";
                       Done (Some [mkFile "q3.csv" 2048])] initial)).
Proof.
  apply X17_strict_requests_carry_no_file.
  apply m_reachable_run. constructor.
Defined.

Lemma orElse_nonempty (a : option string) (b : string) :
  b <> "" -> (String.length (StepForm.orElse a b) =? 0)%nat = false.
Proof.
  intros Hb. apply Nat.eqb_neq. unfold StepForm.orElse.
  destruct a as [s|].
  - destruct (String.length s =? 0)%nat eqn:E.
    + intros H. apply length_zero_empty in H. contradiction.
    + apply Nat.eqb_neq in E. exact E.
  - intros H. apply length_zero_empty in H. contradiction.
Qed.

(** X18: in the strict variant a rejected request stores its reason (a
    fixed message when the error carries none): the status is
    Failed(reason), the step is the same and nothing is in flight.  The
    reason is displayed on step 4 only: after a rejected Done of step 3
    nothing is displayed until the user moves on to step 4.  From step 4
    the request can be sent again, which clears the reason. *)
Theorem X18_strict_failure_is_stored (w : Wizard) (error : StepForm.ApiError) :
  pending w <> 0 ->
  submitSuccess w = false ->
  submitError (requestSettles (Rejected error) w)
  = Some (StepForm.orElse (StepForm.response_data_message error)
                          "An error occurred while submitting the form")
  /\ submissionStatus (requestSettles (Rejected error) w)
     = StepForm.Failed
         (StepForm.orElse (StepForm.response_data_message error)
                          "An error occurred while submitting the form")
  /\ step (requestSettles (Rejected error) w) = step w
  /\ isSubmitting (requestSettles (Rejected error) w) = false
  /\ posted (requestSettles (Rejected error) w) = posted w
  /\ (step w = 3 ->
      errorPanel (requestSettles (Rejected error) w) = None
      /\ errorPanel (skip (requestSettles (Rejected error) w))
         = Some (StepForm.orElse (StepForm.response_data_message error)
                   "An error occurred while submitting the form"))
  /\ (step w = 4 ->
      errorPanel (requestSettles (Rejected error) w)
      = Some (StepForm.orElse (StepForm.response_data_message error)
                "An error occurred while submitting the form")
      /\ submissionStatus (submitProject (requestSettles (Rejected error) w))
         = StepForm.InFlight
      /\ errorPanel (submitProject (requestSettles (Rejected error) w))
         = None).
Proof.
  intros Hpend Hnot.
  unfold requestSettles.
  destruct (pending w) as [|n]; [contradiction|].
  unfold onStep3Submit_settled, submissionStatus. simpl. rewrite Hnot.
  split; [reflexivity|]. split; [reflexivity|]. split; [reflexivity|].
  split; [reflexivity|].
  split.
  { unfold posted. simpl. rewrite flat_map_app. simpl.
    apply app_nil_r. }
  split; intros Hstep.
  - unfold errorPanel, skip, handleSkipFiles, shows. simpl.
    do 3 (rewrite ?Hnot, ?Hstep; simpl).
    rewrite orElse_nonempty by discriminate. split; reflexivity.
  - unfold errorPanel, submitProject, onStep3Submit, shows. simpl.
    do 3 (rewrite ?Hnot, ?Hstep; simpl).
    rewrite orElse_nonempty by discriminate. repeat split.
Qed.

Lemma X18_strict_failure_witness :
  let sent :=
    run [SubmitStep1 "ABC"; SubmitStep2 "a sufficiently long description";
         Done None] initial in
  submissionStatus
    (requestSettles (Rejected (StepForm.mkApiError (Some "Server unavailable")))
                    sent)
  = StepForm.Failed "Server unavailable"
  /\ errorPanel
       (requestSettles
          (Rejected (StepForm.mkApiError (Some "Server unavailable"))) sent)
     = None.
Proof.
  intros sent.
  assert (pending sent <> 0) as Hpend by (vm_compute; discriminate).
  assert (submitSuccess sent = false) as Hnot by (vm_compute; reflexivity).
  assert (step sent = 3) as Hstep by (vm_compute; reflexivity).
  pose proof (X18_strict_failure_is_stored
                sent (StepForm.mkApiError (Some "Server unavailable"))
                Hpend Hnot) as H.
  split.
  - exact (proj1 (proj2 H)).
  - exact (proj1 (proj1 (proj2 (proj2 (proj2 (proj2 (proj2 H))))) Hstep)).
Defined.





(** X19: the Done button of step 3 submits from step 3, and what it
    validates is the selection the form library retains for the file
    input.  While that selection has a file above 5 MiB the click is
    refused: nothing is posted, "File size is too large" is recorded and
    the selection is retained, also after the user has gone back to step
    2 and come to step 3 again.  When the retained selection is valid
    (or there is none), the click posts the request at once, without the
    review of step 4, and when the request is answered the wizard shows
    the success panel with the step still at 3. *)
Theorem X19_strict_done_validates_retained_files (w : Wizard) :
  shows 3 w = true ->
  isSubmitting w = false ->
  (validate3 (filesValue (formStep3 w)) <> Valid ->
   posted (doneClick w) = posted w
   /\ filesError (formStep3 (doneClick w)) = Some "File size is too large"
   /\ filesValue (formStep3 (doneClick w)) = filesValue (formStep3 w)
   /\ submissionStatus (doneClick w) = submissionStatus w
   /\ step (doneClick w) = 3
   /\ forall description : string,
       validate2 description = Valid ->
       shows 3 (submitStep2 description (goBack (doneClick w))) = true
       /\ posted (doneClick (submitStep2 description (goBack (doneClick w))))
          = posted w
       /\ filesError
            (formStep3
               (doneClick (submitStep2 description (goBack (doneClick w)))))
          = Some "File size is too large")
  /\ (validate3 (filesValue (formStep3 w)) = Valid ->
      posted (doneClick w) = posted w ++ [formData w]
      /\ submissionStatus (doneClick w) = StepForm.InFlight
      /\ forall data,
          submissionStatus (requestSettles (Resolved data) (doneClick w))
          = StepForm.Succeeded
          /\ step (requestSettles (Resolved data) (doneClick w)) = 3).
Proof.
  intros Hshow Hidle.
  apply m_shows_step in Hshow as Hs. destruct Hs as [Hnot H3].
  unfold doneClick. split.
  - intros Hbad.
    destruct (validate3 (filesValue (formStep3 w)))
      as [|field message] eqn:Hv; [congruence|].
    rewrite (done_invalid _ field message w Hshow Hidle Hv).
    pose proof Hv as Hv'. rewrite validate3_by_test in Hv'.
    destruct (fileSize (filesValue (formStep3 w))); [discriminate|].
    injection Hv' as _ <-.
    split; [reflexivity|]. split; [reflexivity|]. split; [reflexivity|].
    split; [reflexivity|]. split; [exact H3|].
    intros description Hd.
    assert (goBack
              (setFormStep3
                 (mkFilesStore (filesValue (formStep3 w))
                               (Some "File size is too large")) w)
            = setStep 2
                (setFormStep3
                   (mkFilesStore (filesValue (formStep3 w))
                                 (Some "File size is too large")) w))
      as Hback.
    { unfold goBack, shows. simpl. rewrite Hnot, H3. reflexivity. }
    rewrite Hback.
    rewrite m_submitStep2_valid;
      [|unfold shows; simpl; rewrite Hnot; reflexivity|exact Hd].
    simpl.
    split; [unfold shows; simpl; rewrite Hnot; reflexivity|].
    rewrite (done_invalid _ field "File size is too large");
      [split; reflexivity
      |unfold shows; simpl; rewrite Hnot; reflexivity
      |exact Hidle
      |exact Hv].
  - intros Hv. rewrite (done_valid _ w Hshow Hidle Hv).
    split.
    { unfold posted. simpl. rewrite flat_map_app. reflexivity. }
    split.
    { unfold submissionStatus. simpl. rewrite Hnot. reflexivity. }
    intros data. unfold requestSettles. simpl.
    replace (pending w + 1) with (S (pending w)) by lia.
    split; [reflexivity | exact H3].
Qed.

Lemma X19_strict_done_witness :
  let upload :=
    run [SubmitStep1 "ABC"; SubmitStep2 "a sufficiently long description"]
        initial in
  let refused := done (Some [mkFile "big.bin" 5242881]) upload in
  posted (doneClick
            (submitStep2 "a sufficiently long description"
                         (goBack (doneClick refused))))
  = []
  /\ submissionStatus (requestSettles (Resolved "ok") (doneClick upload))
     = StepForm.Succeeded.
Proof.
  intros upload refused.
  assert (shows 3 refused = true) as Hshow by (vm_compute; reflexivity).
  assert (isSubmitting refused = false) as Hidle
      by (vm_compute; reflexivity).
  assert (validate3 (filesValue (formStep3 refused)) <> Valid) as Hbad
      by (vm_compute; discriminate).
  assert (shows 3 upload = true) as Hshow' by (vm_compute; reflexivity).
  assert (isSubmitting upload = false) as Hidle'
      by (vm_compute; reflexivity).
  assert (validate3 (filesValue (formStep3 upload)) = Valid) as Hok
      by (vm_compute; reflexivity).
  split.
  - apply (proj1 (X19_strict_done_validates_retained_files
                    refused Hshow Hidle) Hbad).
    vm_compute. reflexivity.
  - apply (proj2 (X19_strict_done_validates_retained_files
                    upload Hshow' Hidle') Hok).
Defined.

(** X20: Back keeps what was entered, and going back one step and
    forward again with the same value returns to exactly the same state:
    from step 2 by submitting the name the form holds, from step 3 by
    submitting the description it holds, from step 4 by SKIP. *)
Theorem X20_strict_back_and_forth (w : Wizard) :
  reachable w ->
  (shows 2 w = true ->
   step (goBack w) = 1
   /\ submitStep1 (StepForm.fieldValue (formStep1 w)) (goBack w) = w)
  /\ (shows 3 w = true ->
      step (goBack w) = 2
      /\ submitStep2 (StepForm.fieldValue (formStep2 w)) (goBack w) = w)
  /\ (shows 4 w = true ->
      step (goBack w) = 3 /\ skip (goBack w) = w)
  /\ formStep1 (goBack w) = formStep1 w
  /\ formStep2 (goBack w) = formStep2 w
  /\ formStep3 (goBack w) = formStep3 w
  /\ uploadedFiles (goBack w) = uploadedFiles w.
Proof.
  intros Hreach.
  destruct (m_reachable_sessionInv w Hreach)
    as (_ & _ & _ & _ & _ & Hf1 & Hf2 & _).
  split; [|split; [|split]].
  - intros Hshow. apply m_shows_step in Hshow as Hs.
    destruct Hs as [Hnot H2].
    destruct (Hf1 ltac:(lia)) as [Hform Hvalid].
    unfold goBack. rewrite Hshow. split; [reflexivity|].
    rewrite m_submitStep1_valid;
      [|apply m_shows_step; split; [exact Hnot | reflexivity]
       |exact Hvalid].
    destruct w; simpl in *. subst. f_equal. symmetry. exact Hform.
  - intros Hshow. apply m_shows_step in Hshow as Hs.
    destruct Hs as [Hnot H3].
    destruct (Hf2 ltac:(lia)) as [Hform Hvalid].
    assert (shows 2 w = false) as Hno2.
    { unfold shows. rewrite H3. apply andb_false_r. }
    unfold goBack. rewrite Hno2, Hshow. split; [reflexivity|].
    rewrite m_submitStep2_valid;
      [|apply m_shows_step; split; [exact Hnot | reflexivity]
       |exact Hvalid].
    destruct w; simpl in *. subst. f_equal. symmetry. exact Hform.
  - intros Hshow. apply m_shows_step in Hshow as Hs.
    destruct Hs as [Hnot H4].
    assert (shows 2 w = false) as Hno2.
    { unfold shows. rewrite H4. apply andb_false_r. }
    assert (shows 3 w = false) as Hno3.
    { unfold shows. rewrite H4. apply andb_false_r. }
    unfold goBack. rewrite Hno2, Hno3, Hshow. split; [reflexivity|].
    unfold skip, handleSkipFiles, shows. simpl. rewrite Hnot. simpl.
    destruct w; simpl in *. subst. reflexivity.
  - unfold goBack.
    destruct (shows 2 w); [repeat split|].
    destruct (shows 3 w); [repeat split|].
    destruct (shows 4 w); repeat split.
Qed.

Lemma X20_strict_back_and_forth_witness :
  let upload :=
    run [SubmitStep1 "ABC"; SubmitStep2 "a sufficiently long description"]
        initial in
  submitStep2 "a sufficiently long description" (goBack upload) = upload.
Proof.
  intros upload.
  apply (proj1 (proj2 (X20_strict_back_and_forth upload
                         (m_reachable_run _ initial reachable_initial)))).
  vm_compute. reflexivity.
Defined.

(** X21: Start New Project, which only the success panel offers, puts
    the variables of the wizard back to their initial values, but not
    the forms: the name, the description and the selection entered
    before are still in them. *)
Theorem X21_strict_start_new_keeps_forms (w : Wizard) :
  reachable w ->
  (submitSuccess w = false -> startNew w = w)
  /\ (submitSuccess w = true ->
      startNew w
      = mkWizard (step initial) (uploadedFiles initial)
                 (isSubmitting initial) (submitError initial)
                 (submitSuccess initial)
                 (formStep1 w) (formStep2 w) (formStep3 w)
                 (pending initial) (effects w)).
Proof.
  intros Hreach.
  destruct (m_reachable_sessionInv w Hreach)
    as (_ & _ & Hpend & _ & Hdone & _).
  unfold startNew. split; intros Hs; rewrite Hs; [reflexivity|].
  destruct (Hdone Hs) as [Hidle Herr].
  rewrite Hidle in Hpend.
  unfold setUploadedFiles, setSubmitSuccess, setStep. simpl.
  rewrite Hidle, Herr, Hpend. reflexivity.
Qed.

Lemma X21_strict_start_new_witness :
  let finished :=
    run [SubmitStep1 "ABC"; SubmitStep2 "a sufficiently long description";
         Done None; RequestSettles (Resolved "ok")] initial in
  step (startNew finished) = 1
  /\ StepForm.fieldValue (formStep1 (startNew finished)) = "ABC".
Proof.
  intros finished.
  assert (reachable finished) as Hreach
      by (apply m_reachable_run; constructor).
  assert (submitSuccess finished = true) as Hdone
      by (vm_compute; reflexivity).
  rewrite (proj2 (X21_strict_start_new_keeps_forms finished Hreach) Hdone).
  split; vm_compute; reflexivity.
Defined.

(** X22: the step indicator, in every state a session can reach: the
    circle of the current step is blue, the circles before it are green
    and those after it gray; of the three bars, those before the current
    step are green and the others gray; there is no bar after the last
    circle. *)
Theorem X22_strict_step_indicator (w : Wizard) :
  reachable w ->
  map fst (renderStepIndicator w)
  = repeat Green (step w - 1) ++ [Blue] ++ repeat Gray (4 - step w)
  /\ map snd (renderStepIndicator w)
     = map Some (repeat Green (step w - 1) ++ repeat Gray (4 - step w))
       ++ [None].
Proof.
  intros Hreach.
  destruct (m_reachable_sessionInv w Hreach) as (Hrange & _).
  unfold renderStepIndicator.
  assert (step w = 1 \/ step w = 2 \/ step w = 3 \/ step w = 4)
    as [-> | [-> | [-> | ->]]] by lia;
    split; reflexivity.
Qed.

Lemma X22_strict_step_indicator_witness :
  map fst (renderStepIndicator
             (run [SubmitStep1 "ABC"; GoBack; SubmitStep1 "ABCD"] initial))
  = [Green; Blue; Gray; Gray].
Proof.
  apply (X22_strict_step_indicator
           (run [SubmitStep1 "ABC"; GoBack; SubmitStep1 "ABCD"] initial)).
  apply m_reachable_run. constructor.
Defined.

(** X23: in the strict variant, where the user can go back, the forms
    of the steps already passed still hold values their validators
    accept: from step 2 on the name, from step 3 on the description; and
    the wizard is always on one of the steps 1 to 4, with at most one
    request not yet answered. *)
Theorem X23_strict_passed_forms_are_valid (w : Wizard) :
  reachable w ->
  1 <= step w <= 4
  /\ pending w <= 1
  /\ (2 <= step w -> validate1 (StepForm.fieldValue (formStep1 w)) = Valid)
  /\ (3 <= step w -> validate2 (StepForm.fieldValue (formStep2 w)) = Valid).
Proof.
  intros Hreach.
  destruct (m_reachable_sessionInv w Hreach)
    as (Hrange & _ & Hpend & _ & _ & Hf1 & Hf2 & _).
  split; [exact Hrange|]. split.
  { rewrite Hpend. destruct (isSubmitting w); lia. }
  split; intros H; [apply Hf1 | apply Hf2]; exact H.
Qed.

Lemma X23_strict_passed_forms_witness :
  let w := run [SubmitStep1 "ABC";
                SubmitStep2 "a sufficiently long description";
                GoBack; GoBack; SubmitStep1 "x"; SubmitStep1 "ABCD"]
               initial in
  validate1 (StepForm.fieldValue (formStep1 w)) = Valid.
Proof.
  intros w.
  assert (reachable w) as Hreach by (apply m_reachable_run; constructor).
  apply (proj1 (proj2 (proj2 (X23_strict_passed_forms_are_valid w Hreach)))).
  apply Nat.leb_le. vm_compute. reflexivity.
Defined.

End StrictVariant.

(* ===================================================================== *)
(** ** The earlier StepForm.jsx                                           *)
(* ===================================================================== *)

Section DelayedSteps.
Import DelayedStepForm.

Lemma d_shows_step (n : nat) (w : Wizard) :
  shows n w = true <-> submitSuccess w = false /\ step w = n.
Proof.
  unfold shows. rewrite andb_true_iff, negb_true_iff, Nat.eqb_eq. tauto.
Qed.

Lemma d_submitStep1_valid (input : string) (w : Wizard) :
  shows 1 w = true -> validate1 input = Valid ->
  submitStep1 input w
  = mkWizard (step w) input (analysisDescription w) (files w)
             (isSubmitting w) (submitError w) (submitSuccess w) true
             (StepForm.mkForm input None) (formStep2 w)
             (timers w ++ [2]) (effects w ++ [SetTimeout 1000]).
Proof.
  unfold validate1. intros Hshow Hvalid.
  unfold submitStep1. rewrite Hshow.
  unfold handleStep1, handleSubmit.
  cbn [StepForm.fieldValue formStep1 setFormStep1]. rewrite Hvalid.
  unfold onStep1Submit, triggerStep1, trigger.
  cbn [StepForm.fieldValue formStep1 setFormStep1]. rewrite Hvalid.
  reflexivity.
Qed.

Lemma d_submitStep1_invalid (input field message : string) (w : Wizard) :
  shows 1 w = true -> validate1 input = Invalid field message ->
  submitStep1 input w
  = setFormStep1 (StepForm.mkForm input (Some message)) w.
Proof.
  unfold validate1. intros Hshow Hinvalid.
  unfold submitStep1. rewrite Hshow.
  unfold handleStep1, handleSubmit.
  cbn [StepForm.fieldValue formStep1 setFormStep1]. rewrite Hinvalid.
  reflexivity.
Qed.

Lemma d_submitStep2_valid (input : string) (w : Wizard) :
  shows 2 w = true -> validate2 input = Valid ->
  submitStep2 input w
  = mkWizard (step w) (projectName w) input (files w)
             (isSubmitting w) (submitError w) (submitSuccess w) true
             (formStep1 w) (StepForm.mkForm input None)
             (timers w ++ [3]) (effects w ++ [SetTimeout 1000]).
Proof.
  unfold validate2. intros Hshow Hvalid.
  unfold submitStep2. rewrite Hshow.
  unfold handleStep2, handleSubmit.
  cbn [StepForm.fieldValue formStep2 setFormStep2]. rewrite Hvalid.
  unfold onStep2Submit, triggerStep2, trigger.
  cbn [StepForm.fieldValue formStep2 setFormStep2]. rewrite Hvalid.
  reflexivity.
Qed.

Lemma d_submitStep2_invalid (input field message : string) (w : Wizard) :
  shows 2 w = true -> validate2 input = Invalid field message ->
  submitStep2 input w
  = setFormStep2 (StepForm.mkForm input (Some message)) w.
Proof.
  unfold validate2. intros Hshow Hinvalid.
  unfold submitStep2. rewrite Hshow.
  unfold handleStep2, handleSubmit.
  cbn [StepForm.fieldValue formStep2 setFormStep2]. rewrite Hinvalid.
  reflexivity.
Qed.

(** No click and no submitted form changes the step: only a timeout
    does. *)
Lemma d_user_keeps_step (a : Action) (w : Wizard) :
  a <> TimerElapses -> step (dispatch a w) = step w.
Proof.
  intros Ha. destruct a as [input|input|fl| | | |]; simpl;
    try contradiction.
  - destruct (shows 1 w) eqn:Hshow.
    + destruct (validate1 input) as [|field message] eqn:Hv.
      * rewrite d_submitStep1_valid by assumption. reflexivity.
      * rewrite (d_submitStep1_invalid input field message) by assumption.
        reflexivity.
    + unfold submitStep1. rewrite Hshow. reflexivity.
  - destruct (shows 2 w) eqn:Hshow.
    + destruct (validate2 input) as [|field message] eqn:Hv.
      * rewrite d_submitStep2_valid by assumption. reflexivity.
      * rewrite (d_submitStep2_invalid input field message) by assumption.
        reflexivity.
    + unfold submitStep2. rewrite Hshow. reflexivity.
  - unfold selectFiles. destruct (shows 3 w); reflexivity.
  - unfold advanceSkippingFiles. destruct (shows 3 w && _); reflexivity.
  - unfold advanceWithFiles. destruct (shows 3 w && _); reflexivity.
  - unfold submit. destruct (shows 4 w && _); reflexivity.
Qed.

Lemma sorted_snoc (l : list nat) (a : nat) :
  StronglySorted le l -> Forall (fun x => x <= a) l ->
  StronglySorted le (l ++ [a]).
Proof.
  induction 1 as [|x l Hs IH Hx]; intros Hall; simpl.
  - repeat constructor.
  - inversion Hall; subst. constructor.
    + apply IH. assumption.
    + apply Forall_app. split; [exact Hx | repeat constructor; assumption].
Qed.

Lemma delayedInv_arm (w w' : Wizard) (target : nat) :
  step w' = step w ->
  timers w' = timers w ++ [target] ->
  target = step w + 1 -> step w <= 3 ->
  (target = 2 -> 3 <= String.length (projectName w')) ->
  (target <> 2 -> projectName w' = projectName w) ->
  (target = 3 -> 10 <= String.length (analysisDescription w')) ->
  (target <> 3 -> analysisDescription w' = analysisDescription w) ->
  delayedInv w -> delayedInv w'.
Proof.
  intros Hstep Htimers Htarget Hle Hn2 Hn Hd3 Hd
         (Hrange & Hall & Hsorted & Hname & Hdesc).
  unfold delayedInv. rewrite Hstep, Htimers.
  split; [exact Hrange|]. split.
  { apply Forall_app. split; [exact Hall|].
    repeat constructor; lia. }
  split.
  { apply sorted_snoc; [exact Hsorted|].
    eapply Forall_impl; [|exact Hall]. intros x Hx. cbv beta in Hx. lia. }
  split.
  - intros H.
    destruct (Nat.eq_dec target 2) as [E|E]; [apply Hn2, E|].
    rewrite (Hn E). apply Hname.
    destruct H as [H|H]; [left; exact H|].
    apply in_app_or in H as [H|[H|[]]]; [right; exact H | congruence].
  - intros H.
    destruct (Nat.eq_dec target 3) as [E|E]; [apply Hd3, E|].
    rewrite (Hd E). apply Hdesc.
    destruct H as [H|H]; [left; exact H|].
    apply in_app_or in H as [H|[H|[]]]; [right; exact H | congruence].
Qed.

Lemma delayedInv_frame (w w' : Wizard) :
  step w' = step w -> timers w' = timers w ->
  projectName w' = projectName w ->
  analysisDescription w' = analysisDescription w ->
  delayedInv w -> delayedInv w'.
Proof. unfold delayedInv. intros -> -> -> ->. tauto. Qed.

Lemma d_dispatch_delayedInv (a : Action) (w : Wizard) :
  delayedInv w -> delayedInv (dispatch a w).
Proof.
  intros Hinv. destruct a as [input|input|fl| | | |]; simpl.
  - destruct (shows 1 w) eqn:Hshow.
    + apply d_shows_step in Hshow as Hs. destruct Hs as [_ H1].
      destruct (validate1 input) as [|field message] eqn:Hv.
      * rewrite d_submitStep1_valid by assumption.
        apply validate1_Valid in Hv.
        revert Hinv. apply (delayedInv_arm w _ 2); simpl;
          intros; congruence || lia || reflexivity.
      * rewrite (d_submitStep1_invalid input field message) by assumption.
        revert Hinv. apply delayedInv_frame; reflexivity.
    + unfold submitStep1. rewrite Hshow. exact Hinv.
  - destruct (shows 2 w) eqn:Hshow.
    + apply d_shows_step in Hshow as Hs. destruct Hs as [_ H2].
      destruct (validate2 input) as [|field message] eqn:Hv.
      * rewrite d_submitStep2_valid by assumption.
        apply validate2_Valid in Hv.
        revert Hinv. apply (delayedInv_arm w _ 3); simpl;
          intros; congruence || lia || reflexivity.
      * rewrite (d_submitStep2_invalid input field message) by assumption.
        revert Hinv. apply delayedInv_frame; reflexivity.
    + unfold submitStep2. rewrite Hshow. exact Hinv.
  - unfold selectFiles. destruct (shows 3 w); [|exact Hinv].
    revert Hinv. apply delayedInv_frame; reflexivity.
  - unfold advanceSkippingFiles, handleSkipFiles.
    destruct (shows 3 w) eqn:Hshow; simpl; [|exact Hinv].
    apply d_shows_step in Hshow as [_ H3].
    destruct (negb _); [|exact Hinv].
    revert Hinv. apply (delayedInv_arm w _ 4); simpl;
      intros; congruence || lia || reflexivity.
  - unfold advanceWithFiles.
    destruct (shows 3 w) eqn:Hshow; simpl; [|exact Hinv].
    apply d_shows_step in Hshow as [_ H3].
    destruct (0 <? _)%nat; [|exact Hinv].
    revert Hinv. apply (delayedInv_arm w _ 4); simpl;
      intros; congruence || lia || reflexivity.
  - unfold submit. destruct (shows 4 w && _); [|exact Hinv].
    revert Hinv. apply delayedInv_frame; reflexivity.
  - unfold timerElapses.
    destruct (timers w) as [|target rest] eqn:Ht; [exact Hinv|].
    destruct Hinv as (Hrange & Hall & Hsorted & Hname & Hdesc).
    rewrite Ht in *.
    inversion Hall as [|? ? Htarget Hrest]; subst.
    inversion Hsorted as [|? ? Hs' Hle]; subst.
    unfold delayedInv, setShowTyping, setStep, setTimers.
    cbn [step timers projectName analysisDescription].
    cbv beta in Htarget.
    split; [lia|]. split.
    { rewrite Forall_forall in *. intros x Hx.
      specialize (Hrest x Hx). specialize (Hle x Hx).
      cbv beta in Hrest. lia. }
    split; [exact Hs'|]. split.
    + intros H. apply Hname.
      destruct H as [H|H]; [|right; right; exact H].
      destruct (Nat.eq_dec target 2) as [->|E];
        [right; left; reflexivity | left; lia].
    + intros H. apply Hdesc.
      destruct H as [H|H]; [|right; right; exact H].
      destruct (Nat.eq_dec target 3) as [->|E];
        [right; left; reflexivity | left; lia].
Qed.

Lemma d_reachable_delayedInv (w : Wizard) :
  reachable w -> delayedInv w.
Proof.
  induction 1 as [|a w _ IH].
  - unfold delayedInv, initial. simpl.
    split; [lia|]. split; [constructor|]. split; [constructor|].
    split; intros [H|[]]; lia.
  - apply d_dispatch_delayedInv, IH.
Qed.

Lemma d_reachable_run (actions : list Action) :
  forall w, reachable w -> reachable (run actions w).
Proof.
  unfold run. induction actions as [|a rest IH]; intros w Hw; simpl.
  - exact Hw.
  - apply IH. constructor. exact Hw.
Qed.

Lemma Action_eq_TimerElapses (a : Action) :
  a = TimerElapses \/ a <> TimerElapses.
Proof. destruct a; (left; reflexivity) || (right; discriminate). Qed.

(** X24: in the earlier version the step changes one second after the
    click: no click and no submitted form changes the step, only the
    timeout it arms does.  Meanwhile the form is still there: a valid
    name is stored at once, a second valid name submitted before the
    timeout replaces it and arms a second timeout, and when the first
    timeout elapses the wizard is at step 2 with the second name, the
    typing flag off and one timeout still pending. *)
Theorem X24_delayed_step_waits_for_timeout (w : Wizard) (n1 n2 : string) :
  (forall a, a <> TimerElapses -> step (dispatch a w) = step w)
  /\ (shows 1 w = true ->
      validate1 n1 = Valid -> validate1 n2 = Valid ->
      projectName (submitStep1 n1 w) = n1
      /\ showTyping (submitStep1 n1 w) = true
      /\ timers (submitStep1 n1 w) = timers w ++ [2]
      /\ projectName (submitStep1 n2 (submitStep1 n1 w)) = n2
      /\ timers (submitStep1 n2 (submitStep1 n1 w)) = timers w ++ [2; 2]
      /\ (timers w = [] ->
          step (timerElapses (submitStep1 n2 (submitStep1 n1 w))) = 2
          /\ projectName (timerElapses (submitStep1 n2 (submitStep1 n1 w)))
             = n2
          /\ showTyping (timerElapses (submitStep1 n2 (submitStep1 n1 w)))
             = false
          /\ timers (timerElapses (submitStep1 n2 (submitStep1 n1 w)))
             = [2])).
Proof.
  split; [intros a Ha; apply d_user_keeps_step, Ha|].
  intros Hshow Hv1 Hv2.
  rewrite (d_submitStep1_valid n1 w Hshow Hv1).
  rewrite d_submitStep1_valid; [|exact Hshow|exact Hv2].
  simpl. rewrite <- app_assoc. simpl.
  repeat split.
  all: unfold timerElapses; simpl; rewrite H; reflexivity.
Qed.

Lemma X24_delayed_step_witness :
  step (submitStep1 "ABC" initial) = 1
  /\ projectName
       (timerElapses (submitStep1 "ABCD" (submitStep1 "ABC" initial)))
     = "ABCD".
Proof.
  split.
  - apply (proj1 (X24_delayed_step_waits_for_timeout initial "" "")
                 (SubmitStep1 "ABC")).
    discriminate.
  - apply (proj2 (X24_delayed_step_waits_for_timeout initial "ABC" "ABCD"));
      reflexivity.
Defined.

(** X25: in the earlier version too, with its timeouts elapsing in the
    order they were armed, a session is always on one of the steps 1 to
    4, the step never decreases, and from step 2 on the project name has
    at least 3 characters and from step 3 on the analysis description
    has at least 10. *)
Theorem X25_delayed_session_invariant (w : Wizard) :
  reachable w ->
  1 <= step w <= 4
  /\ (forall a, step w <= step (dispatch a w))
  /\ (2 <= step w ->
      projectName w <> "" /\ 3 <= String.length (projectName w))
  /\ (3 <= step w ->
      analysisDescription w <> ""
      /\ 10 <= String.length (analysisDescription w)).
Proof.
  intros Hreach.
  destruct (d_reachable_delayedInv w Hreach)
    as (Hrange & Hall & _ & Hname & Hdesc).
  split; [exact Hrange|]. split.
  { intros a. destruct (Action_eq_TimerElapses a) as [->|Ha].
    - simpl. unfold timerElapses.
      destruct (timers w) as [|target rest]; [lia|].
      inversion Hall as [|? ? Htarget _]; subst. simpl. lia.
    - rewrite d_user_keeps_step by exact Ha. lia. }
  split; intros H.
  - assert (3 <= String.length (projectName w)) as Hl by (apply Hname; tauto).
    split; [eapply nonempty_of_length|]; exact Hl.
  - assert (10 <= String.length (analysisDescription w)) as Hl
        by (apply Hdesc; tauto).
    split; [eapply nonempty_of_length|]; exact Hl.
Qed.

Lemma X25_delayed_session_witness :
  let w := run [SubmitStep1 "ABC"; SubmitStep1 "ABCD"; TimerElapses;
                SubmitStep2 "a sufficiently long description";
                TimerElapses; TimerElapses] initial in
  3 <= String.length (projectName w).
Proof.
  intros w.
  assert (reachable w) as Hreach by (apply d_reachable_run; constructor).
  apply (proj1 (proj2 (proj2 (X25_delayed_session_invariant w Hreach)))).
  apply Nat.leb_le. vm_compute. reflexivity.
Defined.

(** X26: where [onSubmit] awaits nothing, one click on DONE at step 4
    shows the alert and ends on the success panel at once, with nothing
    in flight.  After that no click and no form changes anything; a
    timeout still pending may elapse, the success panel stays. *)
Theorem X26_immediate_submit (w : Wizard) (a : Action) :
  (shows 4 w = true -> isSubmitting w = false ->
   submit w
   = mkWizard (step w) (projectName w) (analysisDescription w) (files w)
              false None true (showTyping w) (formStep1 w) (formStep2 w)
              (timers w) (effects w ++ [Alert "Done...."]))
  /\ (submitSuccess w = true ->
      submitSuccess (dispatch a w) = true
      /\ (a <> TimerElapses -> dispatch a w = w)).
Proof.
  split.
  - intros Hshow Hidle. unfold submit. rewrite Hshow, Hidle. reflexivity.
  - intros Hdone.
    assert (forall n, shows n w = false) as Hhidden.
    { intros n. unfold shows. rewrite Hdone. reflexivity. }
    destruct a as [input|input|fl| | | |]; simpl;
      unfold submitStep1, submitStep2, selectFiles, advanceSkippingFiles,
        advanceWithFiles, submit; rewrite ?Hhidden; simpl;
      try (split; [exact Hdone | reflexivity]).
    split; [|contradiction].
    unfold timerElapses. destruct (timers w); [exact Hdone|].
    simpl. exact Hdone.
Qed.

Lemma X26_immediate_submit_witness :
  let review :=
    run [SubmitStep1 "ABC"; TimerElapses;
         SubmitStep2 "a sufficiently long description"; TimerElapses;
         AdvanceSkippingFiles; TimerElapses] initial in
  submitSuccess (submit review) = true
  /\ dispatch (SubmitStep1 "again") (submit review) = submit review.
Proof.
  intros review.
  assert (shows 4 review = true) as Hshow by (vm_compute; reflexivity).
  assert (isSubmitting review = false) as Hidle by (vm_compute; reflexivity).
  split.
  - rewrite (proj1 (X26_immediate_submit review Submit) Hshow Hidle).
    reflexivity.
  - apply (proj2 (X26_immediate_submit (submit review)
                    (SubmitStep1 "again"))).
    + vm_compute. reflexivity.
    + discriminate.
Defined.

End DelayedSteps.
